(** * Pixel-format conversion ([Source/PythonScript/conversion.py])

    A shallow embedding of the class [Conversion] and of its conversion
    routines, followed by the properties of the routines.

    Conventions.
    - Array indices, row and column counts are [nat]; sample and byte
      values are [Z], and the bit operations of the source are the ones of
      [Z] ([Z.land], [Z.shiftl], [Z.shiftr]).
    - A Python exception is the [Raise] outcome of the error monad [res].
      The class attributes ([format_type], [y16CameraFlag], [y8_frame])
      are threaded through the class methods by the monad [M], which keeps
      the attributes as they are when an exception leaves the method. *)

From Stdlib Require Import ZArith String QArith_base.
From stdpp Require Import base list.

Local Open Scope Z_scope.
Local Open Scope nat_scope.

(** ** Outcomes of a Python call *)

Inductive exn : Type :=
| TypeError
| ValueError
| IndexError
| AttributeError
| CvError.  (* [cv2.error], raised inside an OpenCV call *)

Inductive res (A : Type) : Type :=
| Ok (a : A)
| Raise (e : exn).
Arguments Ok {A} a.
Arguments Raise {A} e.

#[global] Instance res_ret : MRet res := fun A a => Ok a.
#[global] Instance res_bind : MBind res := fun A B f r =>
  match r with
  | Ok a => f a
  | Raise e => Raise e
  end.

(** [for_each l body s] is [for x in l: s = body(x, s)]. *)
Fixpoint for_each {A S : Type} (l : list A) (body : A → S → res S) (s : S)
  : res S :=
  match l with
  | [] => Ok s
  | x :: l' =>
      match body x s with
      | Ok s' => for_each l' body s'
      | Raise e => Raise e
      end
  end.

(** [range(0, stop, step)] for a positive [step]. *)
Definition py_range (stop step : nat) : list nat :=
  (λ k, k * step) <$> seq 0 ((stop + step - 1) / step).

(** ** Arrays *)

(** A two-dimensional [numpy] array of integers: its shape and its
    elements in row-major order. *)
Record Mat : Type := mkMat {
  rows : nat;
  cols : nat;
  elems : list Z;
}.

(** A frame handed over by the acquisition layer, as the routines see it:
    [frame.shape], [frame.tobytes()] and the sample values that the
    element-wise [cv2] functions read. *)
Record Frame : Type := mkFrame {
  shape : nat * nat;
  tobytes : list Z;
  samples : list Z;
}.

(** A three-channel (B, G, R) image. *)
Record Image : Type := mkImage {
  irows : nat;
  icols : nat;
  pixels : list (Z * Z * Z);
}.

(** [np.zeros(shape=(h, w), dtype=np.uint8)] *)
Definition np_zeros2 (h w : nat) : Mat := mkMat h w (replicate (h * w) 0%Z).

(** [a[i, j]] for non-negative indices *)
Definition mat_get (m : Mat) (i j : nat) : res Z :=
  if bool_decide (i < rows m ∧ j < cols m) then
    match elems m !! (i * cols m + j) with
    | Some v => Ok v
    | None => Raise IndexError
    end
  else Raise IndexError.

(** [a[i, j] = v] for non-negative indices *)
Definition mat_set (m : Mat) (i j : nat) (v : Z) : res Mat :=
  if bool_decide (i < rows m ∧ j < cols m) then
    Ok (mkMat (rows m) (cols m) (<[i * cols m + j := v]> (elems m)))
  else Raise IndexError.

(** [l[lo:hi]] for [0 <= lo <= hi] *)
Definition py_slice {A : Type} (l : list A) (lo hi : nat) : list A :=
  take (hi - lo) (drop lo l).

(** [np.reshape(a, (-1, 3))] of a one-dimensional array *)
Fixpoint triplets (l : list Z) : list (list Z) :=
  match l with
  | b0 :: b1 :: b2 :: l' => [b0; b1; b2] :: triplets l'
  | _ => []
  end.

Definition np_reshape_m1_3 (l : list Z) : res (list (list Z)) :=
  if bool_decide (length l `mod` 3 = 0) then Ok (triplets l)
  else Raise ValueError.

(** [np.delete(a, k, 1)]: column [k] removed from every row. *)
Definition np_delete_axis1 (k : nat) (a : list (list Z)) : list (list Z) :=
  delete k <$> a.

(** [a[i,] = src] where [a] is [None] or a two-dimensional array and [src]
    is one-dimensional: the row index is checked, then [src] is broadcast
    to the row (same length, or a single value repeated). *)
Definition setitem_row (a : option Mat) (i : nat) (src : list Z)
  : res (option Mat) :=
  match a with
  | None => Raise TypeError
  | Some m =>
      if bool_decide (i < rows m) then
        if bool_decide (length src = cols m) then
          Ok (Some (mkMat (rows m) (cols m)
                      (take (i * cols m) (elems m) ++ src
                         ++ drop ((i + 1) * cols m) (elems m))))
        else
          match src with
          | [v] =>
              Ok (Some (mkMat (rows m) (cols m)
                          (take (i * cols m) (elems m) ++ replicate (cols m) v
                             ++ drop ((i + 1) * cols m) (elems m))))
          | _ => Raise ValueError
          end
      else Raise IndexError
  end.

(** ** Python values *)

(** The values the class attribute [format_type] takes: the integer [0]
    of the class body, then the string of the negotiated format. *)
Inductive pyval : Type :=
| PyInt (n : Z)
| PyStr (s : string).

Definition pyval_eqb (a b : pyval) : bool :=
  match a, b with
  | PyInt x, PyInt y => Z.eqb x y
  | PyStr x, PyStr y => String.eqb x y
  | _, _ => false
  end.

(** What a conversion method hands back. *)
Inductive pyobj : Type :=
| ONone
| OStr (s : string)
| OMat (m : Mat)
| OImage (img : Image)
| OPair (rgb : Image) (ir : Mat).

(** ** The class attributes *)

Record Conversion : Type := mkConversion {
  format_type : pyval;
  y16CameraFlag : Z;
  y8_frame : option Mat;
}.

Definition OTHER_Y16CAMERAS : Z := 0.
Definition SEE3CAM_20CUG : Z := 1.
Definition SEE3CAM_CU40 : Z := 2.
Definition V4L2_PIX_FMT_Y16 : string := "Y16 ".
Definition V4L2_PIX_FMT_Y12 : string := "Y12 ".

(** The attributes as the class body leaves them. *)
Definition class_body : Conversion :=
  mkConversion (PyInt 0) (-1) None.

(** A class method: it reads and updates the attributes, and the updates
    made before an exception stay. *)
Definition M (A : Type) : Type := Conversion → res A * Conversion.

#[global] Instance M_ret : MRet M := fun A a st => (Ok a, st).
#[global] Instance M_bind : MBind M := fun A B f c st =>
  match c st with
  | (Ok a, st') => f a st'
  | (Raise e, st') => (Raise e, st')
  end.

Definition lift {A : Type} (r : res A) : M A := fun st => (r, st).

Fixpoint for_eachM {S : Type} (l : list nat) (body : nat → S → M S) (s : S)
  : M S :=
  match l with
  | [] => mret s
  | x :: l' => s' ← body x s; for_eachM l' body s'
  end.

(** ** [convert_y12_to_y8] *)

(** The body of the loop of lines 87-89: one row of the shared
    [y8_frame] is assigned, and [m] advances by [column]. *)
Definition y12_to_y8_row (filtered_bytes : list Z) (column : nat)
    (i m : nat) : M nat :=
  fun st =>
    match setitem_row (y8_frame st) i
            (py_slice filtered_bytes m (m + column)) with
    | Ok y8 => (Ok (m + column),
                mkConversion (format_type st) (y16CameraFlag st) y8)
    | Raise e => (Raise e, st)
    end.

Definition get_y8_frame : M pyobj :=
  fun st =>
    (Ok match y8_frame st with Some m => OMat m | None => ONone end, st).

Definition convert_y12_to_y8 (frame : Frame) : M pyobj :=
  let raw_bytes := tobytes frame in
  let '(row, column) := shape frame in
  let filtered_bytes := raw_bytes in
  filtered_bytes ← lift (np_reshape_m1_3 filtered_bytes);
  let filtered_bytes := np_delete_axis1 2 filtered_bytes in
  let filtered_bytes := concat filtered_bytes in
  _ ← for_eachM (seq 0 row) (y12_to_y8_row filtered_bytes column) 0;
  get_y8_frame.

(** ** [convert_y12_for_still] *)

(** A Python integer stored into a [np.uint8] array. The routine only
    stores values of the range of a byte ([padded_quad_uint8] below), on
    which the store keeps the value. *)
Definition to_uint8 (v : Z) : Z := (v `mod` 256)%Z.

(** [raw_bytes[k]] *)
Definition bytes_get (raw_bytes : list Z) (k : nat) : res Z :=
  match raw_bytes !! k with
  | Some b => Ok b
  | None => Raise IndexError
  end.

(** [buf[k] = v] on a one-dimensional [np.uint8] array *)
Definition buf_set (buf : list Z) (k : nat) (v : Z) : res (list Z) :=
  if bool_decide (k < length buf) then Ok (<[k := to_uint8 v]> buf)
  else Raise IndexError.

(** Lines 128-139, the body of the inner loop; the loop state is the
    buffer together with the read position [m]. *)
Definition y12_for_still_body (raw_bytes : list Z) (stride j i : nat)
    (s : list Z * nat) : res (list Z * nat) :=
  let '(y12_still_buffer, m) := s in
  b ← bytes_get raw_bytes m;
  y12_still_buffer ←
    buf_set y12_still_buffer (stride * j + i + 1) (Z.shiftr (Z.land 0xF0 b) 4);
  b ← bytes_get raw_bytes m;
  let bPixel1 := Z.land b 0x0F in
  b ← bytes_get raw_bytes (m + 2);
  let bPixel2 := Z.land b 0x0F in
  let bPixel1 := Z.shiftl bPixel1 4 in
  y12_still_buffer ←
    buf_set y12_still_buffer (stride * j + i) (bPixel1 + bPixel2)%Z;
  b ← bytes_get raw_bytes (m + 1);
  y12_still_buffer ←
    buf_set y12_still_buffer (stride * j + i + 3) (Z.shiftr (Z.land 0xF0 b) 4);
  b ← bytes_get raw_bytes (m + 1);
  let bPixel1 := Z.land b 0x0F in
  b ← bytes_get raw_bytes (m + 2);
  let bPixel2 := Z.land b 0xF0 in
  let bPixel1 := Z.shiftl bPixel1 4 in
  let bPixel2 := Z.shiftr bPixel2 4 in
  y12_still_buffer ←
    buf_set y12_still_buffer (stride * j + i + 2) (bPixel1 + bPixel2)%Z;
  mret (y12_still_buffer, m + 3).

Definition convert_y12_for_still (frame : Frame) : res (list Z) :=
  let raw_bytes := tobytes frame in
  let '(row, column) := shape frame in
  let y12_still_buffer := replicate (row * column * 2) 0%Z in
  let m := 0 in
  let stride := column * 2 in
  s ← for_each (seq 0 row)
        (λ j, for_each (py_range stride 4)
                (y12_for_still_body raw_bytes stride j))
        (y12_still_buffer, m);
  mret s.1.

(** ** Routines that call into [cv2] *)

(** The colour codes of [cv2.cvtColor] for the two 4:2:2 layouts. *)
Inductive yuv_code : Type :=
| COLOR_YUV2BGR_UYVY
| COLOR_YUV2BGR_YUY2.

(** What the dictionary of [convert_frame] holds: a bound class method of
    one argument, or the fallback, a [lambda] without parameters. *)
Inductive callable : Type :=
| BoundMethod (f : Frame → M pyobj)
| Lambda0 (body : pyobj).

(** [func(frame)] *)
Definition call1 (func : callable) (frame : Frame) : M pyobj :=
  match func with
  | BoundMethod f => f frame
  | Lambda0 _ => lift (Raise TypeError)
  end.

(** [d.get(key, default)] on a dictionary written as a literal *)
Definition dict_get {V : Type} (d : list (string * V)) (key : string)
    (default : V) : V :=
  match List.find (λ kv, String.eqb kv.1 key) d with
  | Some kv => kv.2
  | None => default
  end.

(** [np.zeros(n, np.uint8).reshape(h, w)] *)
Definition np_zeros_reshape (n h w : nat) : res Mat :=
  if bool_decide (n = h * w) then Ok (mkMat h w (replicate n 0%Z))
  else Raise ValueError.

Section Cv2.

(** [cv2.cvtColor(frame, code)] for the two YUV codes. *)
Variable cvtColor_YUV2BGR : yuv_code → Frame → res Image.

(** [cv2.cvtColor(m, cv2.COLOR_BayerRG2BGR)] *)
Variable cvtColor_BayerRG2BGR : Mat → res Image.

(** What [cv2.convertScaleAbs] makes of one sample for the scale factor
    [alpha] (and the offset [beta = 0]). *)
Variable scale_abs : Q → Z → Z.

(** [cv2.convertScaleAbs(frame, dst)]. The signature of the function is
    [convertScaleAbs(src[, dst[, alpha[, beta]]])]: the source calls it
    with two positional arguments, so its decimal is taken for [dst] and
    the scale factor keeps its default, [alpha = 1]. The result is a new
    8-bit array (a [numpy.ndarray]) of the shape of the frame, computed
    sample by sample. *)
Definition convertScaleAbs (frame : Frame) (dst : Q) : Mat :=
  mkMat (shape frame).1 (shape frame).2
    (scale_abs (Qmake 1 1) <$> samples frame).

(** [m.clone()] on a [numpy.ndarray]: the class has no attribute [clone]
    (its copying method is [copy]), and the attribute lookup raises
    [AttributeError]. *)
Definition ndarray_clone (m : Mat) : res Mat := Raise AttributeError.

(** Lines 162-163, the body of the inner loop; the loop state is
    [bayer_RGGB] together with [ir_frame]. *)
Definition RGIR_to_RGGB_body (bayer_RGIR : Mat) (i j : nat)
    (s : Mat * Mat) : res (Mat * Mat) :=
  let '(bayer_RGGB, ir_frame) := s in
  v ← mat_get bayer_RGIR i (j + 1);
  bayer_RGGB ← mat_set bayer_RGGB (i + 1) j v;
  v ← mat_get bayer_RGIR (i + 1) j;
  ir_frame ← mat_set ir_frame (i / 2) (j / 2) v;
  mret (bayer_RGGB, ir_frame).

(** [bayer_RGIR] is the array returned by [cv2.convertScaleAbs], and line
    156 calls [clone] on it. The sizes [int((column * row) / 4)],
    [int(row / 2)], [int(column / 2)] and the indices [int(i / 2)],
    [int(j / 2)] are quotients of non-negative integers, cut to an
    integer. *)
Definition convert_RGIR_to_RGGB (frame : Frame) : res (Image * Mat) :=
  let '(row, column) := shape frame in
  let bayer_RGIR := convertScaleAbs frame (Qmake 249023 1000000) in
  bayer_RGGB ← ndarray_clone bayer_RGIR;
  ir_frame ← np_zeros_reshape ((column * row) / 4) (row / 2) (column / 2);
  s ← for_each (py_range row 2)
        (λ i, for_each (py_range column 2) (RGIR_to_RGGB_body bayer_RGIR i))
        (bayer_RGGB, ir_frame);
  rgb_frame ← cvtColor_BayerRG2BGR s.1;
  mret (rgb_frame, s.2).

Definition convert_y16_to_rgb (frame : Frame) : M pyobj :=
  fun st =>
    if Z.eqb (y16CameraFlag st) SEE3CAM_20CUG then
      (Ok (OMat (convertScaleAbs frame (Qmake 2490234375 10000000000))), st)
    else if Z.eqb (y16CameraFlag st) SEE3CAM_CU40 then
      (p ← convert_RGIR_to_RGGB frame; mret (OPair p.1 p.2), st)
    else if Z.eqb (y16CameraFlag st) OTHER_Y16CAMERAS then
      (Ok (OMat (convertScaleAbs frame (Qmake 6226 100000))), st)
    else (Ok ONone, st).

(** The dictionary literal of lines 62-65. *)
Definition convert_func : list (string * callable) :=
  [ ("Y12 "%string, BoundMethod convert_y12_to_y8);
    ("Y16 "%string, BoundMethod convert_y16_to_rgb) ].

Definition convert_frame (frame : Frame) (frame_format : string)
  : M pyobj :=
  fun st =>
    if pyval_eqb (format_type st) (PyStr "UYVY") then
      (img ← cvtColor_YUV2BGR COLOR_YUV2BGR_UYVY frame; mret (OImage img), st)
    else if pyval_eqb (format_type st) (PyStr "YUY2") then
      (img ← cvtColor_YUV2BGR COLOR_YUV2BGR_YUY2 frame; mret (OImage img), st)
    else
      let func :=
        dict_get convert_func frame_format
          (Lambda0 (OStr "Invalid Selection")) in
      call1 func frame st.

End Cv2.

(** ** [init_conversion] *)

(** [s.find(sub) > -1] *)
Definition str_contains (sub s : string) : bool :=
  match String.index 0 sub s with
  | Some _ => true
  | None => false
  end.

Definition init_conversion (current_format : string * nat * nat * nat)
    (device_name : string) : M unit :=
  fun st =>
    let '(fmt, width, height, fps) := current_format in
    let flag :=
      if String.eqb fmt V4L2_PIX_FMT_Y16 then
        if str_contains "See3CAM_20CUG" device_name then SEE3CAM_20CUG
        else if str_contains "See3CAM_CU40" device_name then SEE3CAM_CU40
        else OTHER_Y16CAMERAS
      else y16CameraFlag st in
    (Ok tt, mkConversion (PyStr fmt) flag (Some (np_zeros2 height width))).

(** ** The packed 12-bit layout *)

(** Two 12-bit samples in three bytes, as [convert_y12_for_still] reads
    them: the first two bytes carry the upper eight bits of the two
    samples, the third byte their lower four bits (first sample in the
    low nibble). *)
Definition pack_pair (s0 s1 : Z) : list Z :=
  [ Z.shiftr s0 4; Z.shiftr s1 4;
    (Z.land s0 0x0F + Z.shiftl (Z.land s1 0x0F) 4)%Z ].

Fixpoint pack_y12 (l : list Z) : list Z :=
  match l with
  | s0 :: s1 :: l' => pack_pair s0 s1 ++ pack_y12 l'
  | _ => []
  end.

(** The four bytes that section 4.5 of the specification lists for one
    packed triplet. *)
Definition padded_quad (b0 b1 b2 : Z) : list Z :=
  [ (Z.shiftl (Z.land b0 0x0F) 4 + Z.land b2 0x0F)%Z;
    Z.shiftr (Z.land b0 0xF0) 4;
    (Z.shiftl (Z.land b1 0x0F) 4 + Z.shiftr (Z.land b2 0xF0) 4)%Z;
    Z.shiftr (Z.land b1 0xF0) 4 ].

(** The nibble arrangement of [padded_quad] read backwards: the two
    12-bit samples held by four output bytes. *)
Definition unpad_quad (out : list Z) : option (Z * Z) :=
  match out with
  | [o0; o1; o2; o3] =>
      Some ((Z.shiftl o1 8 + o0)%Z, (Z.shiftl o3 8 + o2)%Z)
  | _ => None
  end.

(** The unpacking of section 4.3 as the specification words it: the
    buffer is flattened, cut into triplets, the second byte of every
    triplet is dropped, and the remaining bytes fill the rows of the
    output buffer one after the other. *)
Definition y12_to_y8_as_worded (frame : Frame) (y8 : Mat) : Mat :=
  let '(row, column) := shape frame in
  let kept := concat (delete 1 <$> triplets (tobytes frame)) in
  mkMat (rows y8) (cols y8)
    (take (row * column) kept ++ drop (row * column) (elems y8)).

(** ** Models of the [cv2] calls *)

(** [n / d] rounded to the nearest integer, a tie going to the even
    neighbour; [d] is positive. *)
Definition round_half_even (n d : Z) : Z :=
  let q := (n / d)%Z in
  let r := (n `mod` d)%Z in
  if (2 * r <? d)%Z then q
  else if (d <? 2 * r)%Z then (q + 1)%Z
  else if Z.even q then q else (q + 1)%Z.

Definition saturate_uint8 (v : Z) : Z := Z.max 0 (Z.min 255 v).

(** Modelled from the spec: [cv2.convertScaleAbs] is code of the OpenCV
    library, which is not part of [Source/PythonScript]. Section 4.4 has
    it as a linear scale by the factor followed by saturation
    (absolute value, then clamp to [0, 255]). The product is taken
    exactly and rounded to the nearest integer, as OpenCV's
    [saturate_cast] does; for the factor 0.2490234375 = 255/1024 and a
    16-bit sample the floating-point product of the library is exact as
    well. *)
Definition scale_abs_exact (alpha : Q) (x : Z) : Z :=
  saturate_uint8
    (round_half_even (Z.abs (x * Qnum alpha)) (Z.pos (Qden alpha))).

(** The colour filter over a sample of an RGGB mosaic. *)
Inductive cfa : Type := CfaR | CfaG | CfaB.

Definition cfa_eqb (a b : cfa) : bool :=
  match a, b with
  | CfaR, CfaR | CfaG, CfaG | CfaB, CfaB => true
  | _, _ => false
  end.

Definition cfa_RGGB (y x : nat) : cfa :=
  if Nat.even y then (if Nat.even x then CfaR else CfaG)
  else (if Nat.even x then CfaG else CfaB).

(** The indices next to [k] (and [k] itself) inside [0 .. n-1]. *)
Definition around (n k : nat) : list nat :=
  filter (λ y, y < n) (match k with 0 => [] | S k' => [k'] end ++ [k; k + 1]).

(** The samples of colour [c] in the 3x3 window around [(i, j)], the
    window being cut at the border of the mosaic. *)
Definition window_samples (m : Mat) (c : cfa) (i j : nat) : list Z :=
  y ← around (rows m) i;
  x ← around (cols m) j;
  if cfa_eqb (cfa_RGGB y x) c then
    match elems m !! (y * cols m + x) with
    | Some v => [v]
    | None => []
    end
  else [].

Definition sum_list_Z (l : list Z) : Z := foldr Z.add 0%Z l.

(** The mean of a non-empty list, rounded to the nearest integer. *)
Definition rounded_mean (l : list Z) : Z :=
  match l with
  | [] => 0%Z
  | _ => ((2 * sum_list_Z l + Z.of_nat (length l))
            / (2 * Z.of_nat (length l)))%Z
  end.

Definition demosaic_pixel (m : Mat) (i j : nat) : Z * Z * Z :=
  (rounded_mean (window_samples m CfaB i j),
   rounded_mean (window_samples m CfaG i j),
   rounded_mean (window_samples m CfaR i j)).

(** Modelled from the spec: [cv2.cvtColor(_, cv2.COLOR_BayerRG2BGR)] is
    code of the OpenCV library, which is not part of
    [Source/PythonScript]. Section 4.6 calls it the standard Bayer RGGB
    demosaicing, which by the glossary reconstructs full colour via
    interpolation: every channel of every pixel is the mean of the
    samples of that colour in the pixel's 3x3 neighbourhood. *)
Definition demosaic_RGGB (m : Mat) : res Image :=
  Ok (mkImage (rows m) (cols m)
        (i ← seq 0 (rows m); j ← seq 0 (cols m); [demosaic_pixel m i j])).

(** A stand-in for the YUV conversions, which no property below looks
    into: a black image of the shape of the frame. *)
Definition black_image (code : yuv_code) (frame : Frame) : res Image :=
  Ok (mkImage (shape frame).1 (shape frame).2
        (replicate ((shape frame).1 * (shape frame).2) (0, 0, 0)%Z)).

(** ** Notions used in the statements and proofs *)

(** The four stores of one pass of the inner loop. *)
Definition store_quad (buf : list Z) (k : nat) (q0 q1 q2 q3 : Z) : list Z :=
  <[k + 2 := q2]> (<[k + 3 := q3]> (<[k := q0]> (<[k + 1 := q1]> buf))).

(** The four bytes laid down for triplet [u] of the frame. *)
Definition quad_at (raw : list Z) (u : nat) : option (list Z) :=
  b0 ← raw !! (3 * u); b1 ← raw !! (3 * u + 1); b2 ← raw !! (3 * u + 2);
  Some (padded_quad b0 b1 b2).

(** The state of the loops after [t] triplets. *)
Definition still_inv (raw : list Z) (size t : nat) (s : list Z * nat) : Prop :=
  s.2 = 3 * t ∧ length s.1 = size
  ∧ ∀ u q o, u < t → quad_at raw u = Some q → o < 4 →
      s.1 !! (4 * u + o) = q !! o.

(** The format string that selects a YUV colour code. *)
Definition yuv_name (code : yuv_code) : string :=
  match code with
  | COLOR_YUV2BGR_UYVY => "UYVY"
  | COLOR_YUV2BGR_YUY2 => "YUY2"
  end.

(** The scaling by the decimal of the SEE3CAM_20CUG branch, on one
    sample. *)
Definition scale_20CUG (x : Z) : Z :=
  scale_abs_exact (Qmake 2490234375 10000000000) x.

(** An array whose element list has the length its shape asks for. *)
Definition mat_wf (m : Mat) : Prop := length (elems m) = rows m * cols m.

(** What a conversion leaves of the session: the format, the camera
    flag, and the shape (and well-formedness) of the shared buffer. *)
Definition session_kept (st st' : Conversion) : Prop :=
  format_type st' = format_type st
  ∧ y16CameraFlag st' = y16CameraFlag st
  ∧ match y8_frame st, y8_frame st' with
    | None, None => True
    | Some m, Some m' =>
        rows m' = rows m ∧ cols m' = cols m ∧ (mat_wf m → mat_wf m')
    | _, _ => False
    end.

(** The bytes that [convert_y12_to_y8] keeps of a frame. *)
Definition kept_bytes (frame : Frame) : list Z :=
  concat (np_delete_axis1 2 (triplets (tobytes frame))).

(** The session with another buffer. *)
Definition with_y8_frame (st : Conversion) (y8 : Mat) : Conversion :=
  mkConversion (format_type st) (y16CameraFlag st) (Some y8).

(** [sub] occurs in [s]: some position of [s] starts a copy of [sub]. *)
Definition occurs_in (sub s : string) : Prop :=
  ∃ m, String.substring m (String.length sub) s = sub.


(** ** Concrete sessions and frames *)

(** The session after [init_conversion] for a 2 by 1 Y12 stream. *)
Definition session_y12_2x1 : Conversion :=
  (init_conversion ("Y12 "%string, 2, 1, 30) "See3CAM_CU135" class_body).2.

(** One packed triplet, holding the samples [0xABF] and [0xCDE]. *)
Definition frame_ABCDEF : Frame := mkFrame (1, 2) [0xAB; 0xCD; 0xEF]%Z [].

(** The 1 by 2 frame that packs the samples [s0] and [s1]. *)
Definition frame_of_pair (s0 s1 : Z) : Frame :=
  mkFrame (1, 2) (pack_pair s0 s1) [].

(** A 2 by 2 frame of 16-bit samples. *)
Definition frame_y16_2x2 : Frame :=
  mkFrame (2, 2) [] [0; 512; 1023; 4095]%Z.

(** A session negotiated as UYVY. *)
Definition session_uyvy : Conversion :=
  (init_conversion ("UYVY"%string, 2, 2, 30) "See3CAM_CU135" class_body).2.

(** A Y16 session on a See3CAM_20CUG. *)
Definition session_20cug : Conversion :=
  (init_conversion ("Y16 "%string, 2, 2, 30) "See3CAM_20CUG" class_body).2.

(** A 2 by 4 frame whose 16-bit samples all equal 1000. *)
Definition frame_uniform_2x4 : Frame :=
  mkFrame (2, 4) [] (replicate 8 1000%Z).

(** The session after [init_conversion] for a 2 by 2 Y12 stream. *)
Definition session_y12_2x2 : Conversion :=
  (init_conversion ("Y12 "%string, 2, 2, 30) "See3CAM_CU135" class_body).2.

(** A 3 by 2 frame of three packed triplets. *)
Definition frame_3x2 : Frame :=
  mkFrame (3, 2) [1; 2; 3; 4; 5; 6; 7; 8; 9]%Z [].

(** A 1 by 4 frame: two packed triplets, four 16-bit samples. *)
Definition frame_1x4 : Frame :=
  mkFrame (1, 4) [1; 2; 3; 4; 5; 6]%Z [100; 200; 300; 400]%Z.

(** A 2 by 2 frame of two packed triplets. *)
Definition frame_2x2 : Frame := mkFrame (2, 2) [1; 2; 3; 4; 5; 6]%Z [].

(** A 1 by 3 frame: an odd width. *)
Definition frame_1x3 : Frame := mkFrame (1, 3) [1; 2; 3; 4; 5; 6]%Z [].

(** A 2 by 2 frame that brings one packed triplet only. *)
Definition frame_2x2_short : Frame := mkFrame (2, 2) [1; 2; 3]%Z [].

(** A Y16 session on a See3CAM_CU40. *)
Definition session_cu40 : Conversion :=
  (init_conversion ("Y16 "%string, 4, 2, 30) "See3CAM_CU40" class_body).2.

(** * Properties *)

(** ** Loops *)

Lemma for_each_inv {A T : Type} (I : nat → T → Prop) (l : list A)
    (body : A → T → res T) (s0 : T) :
  I 0 s0 →
  (∀ k x s, l !! k = Some x → I k s → ∃ s', body x s = Ok s' ∧ I (S k) s') →
  ∃ s', for_each l body s0 = Ok s' ∧ I (length l) s'.
Proof.
  revert I s0. induction l as [|x l IH]; intros I s0 H0 Hstep.
  - exists s0. split; [reflexivity | exact H0].
  - destruct (Hstep 0 x s0 eq_refl H0) as (s1 & Hx & H1).
    cbn [for_each]. rewrite Hx.
    apply (IH (λ k, I (S k))); [exact H1 |].
    intros k y s Hk. apply (Hstep (S k)). exact Hk.
Qed.

Lemma for_each_raises {A T : Type} (J : T → Prop) (l : list A)
    (body : A → T → res T) (s0 : T) (x : A) :
  J s0 →
  (∀ y s s', y ∈ l → J s → body y s = Ok s' → J s') →
  x ∈ l →
  (∀ s, J s → ∃ e, body x s = Raise e) →
  ∃ e, for_each l body s0 = Raise e.
Proof.
  revert s0. induction l as [|y l IH]; intros s0 H0 Hpres Hin Hx.
  - inversion Hin.
  - cbn [for_each]. destruct (body y s0) as [s1|e] eqn:Hy; [| by eexists].
    apply elem_of_cons in Hin as [->|Hin].
    + destruct (Hx s0 H0) as [e He]. congruence.
    + apply IH; [| | exact Hin | exact Hx].
      * apply (Hpres y s0); [left | exact H0 | exact Hy].
      * intros z s s' Hz. apply Hpres. by right.
Qed.

Lemma for_eachM_inv {T : Type} (I : nat → T → Conversion → Prop)
    (l : list nat) (body : nat → T → M T) (s0 : T) (st0 : Conversion) :
  I 0 s0 st0 →
  (∀ k x s st, l !! k = Some x → I k s st →
     ∃ s' st', body x s st = (Ok s', st') ∧ I (S k) s' st') →
  ∃ s' st', for_eachM l body s0 st0 = (Ok s', st') ∧ I (length l) s' st'.
Proof.
  revert I s0 st0. induction l as [|x l IH]; intros I s0 st0 H0 Hstep.
  - exists s0, st0. split; [reflexivity | exact H0].
  - destruct (Hstep 0 x s0 st0 eq_refl H0) as (s1 & st1 & Hx & H1).
    cbn [for_eachM]. unfold mbind, M_bind. rewrite Hx.
    apply (IH (λ k, I (S k))); [exact H1 |].
    intros k y s st Hk. apply (Hstep (S k)). exact Hk.
Qed.

Lemma lookup_py_range (stop step k : nat) :
  0 < step → k * step < stop → py_range stop step !! k = Some (k * step).
Proof.
  intros Hstep Hk. unfold py_range.
  rewrite list_lookup_fmap, lookup_seq_lt; [reflexivity |].
  apply Nat.div_le_lower_bound; [lia |].
  assert (step * S k = k * step + step) as -> by lia; lia.
Qed.

Lemma py_range_exact (h step : nat) :
  0 < step → py_range (h * step) step = (λ k, k * step) <$> seq 0 h.
Proof.
  intros Hstep. unfold py_range. do 2 f_equal.
  symmetry. apply Nat.div_unique with (r := step - 1); lia.
Qed.

(** ** The triplets of a byte string *)

Lemma triplets_ind (P : list Z → Prop) :
  P [] →
  (∀ b0 b1 b2 l, P l → P (b0 :: b1 :: b2 :: l)) →
  ∀ l, length l `mod` 3 = 0 → P l.
Proof.
  intros Hnil Hcons l.
  remember (length l) as n eqn:Hn. revert l Hn.
  induction n as [n IH] using lt_wf_ind. intros l Hn Hmod.
  destruct l as [|b0 [|b1 [|b2 l]]]; cbn [length] in Hn; subst n.
  - exact Hnil.
  - discriminate Hmod.
  - discriminate Hmod.
  - apply Hcons. apply (IH (length l)); [lia | reflexivity |].
    assert (S (S (S (length l))) = length l + 1 * 3) as E by lia.
    rewrite E, Nat.Div0.mod_add in Hmod. exact Hmod.
Qed.

(** The bytes kept by [np.delete(_, 2, 1)]: byte [n] of the flattened
    result is byte [n mod 2] of triplet [n / 2]. *)
Lemma kept_bytes_lookup (raw : list Z) (n : nat) :
  length raw `mod` 3 = 0 →
  concat (np_delete_axis1 2 (triplets raw)) !! n
  = raw !! (3 * (n / 2) + n `mod` 2).
Proof.
  intros Hmod. revert n. revert raw Hmod.
  apply (triplets_ind (λ raw, ∀ n,
    concat (np_delete_axis1 2 (triplets raw)) !! n
    = raw !! (3 * (n / 2) + n `mod` 2))).
  - intros n. rewrite !lookup_nil. reflexivity.
  - intros b0 b1 b2 l IH n. cbn [triplets np_delete_axis1 fmap list_fmap concat delete list_delete app].
    destruct n as [|[|n]]; [reflexivity | reflexivity |].
    cbn [lookup list_lookup]. fold (np_delete_axis1 2 (triplets l)).
    rewrite IH.
    assert (S (S n) = n + 1 * 2) as -> by lia.
    rewrite Nat.div_add, Nat.Div0.mod_add by lia.
    assert (3 * (n / 2 + 1) + n `mod` 2 = S (S (S (3 * (n / 2) + n `mod` 2))))
      as -> by lia.
    reflexivity.
Qed.

Lemma kept_bytes_length (raw : list Z) :
  length raw `mod` 3 = 0 →
  length (concat (np_delete_axis1 2 (triplets raw))) = 2 * (length raw / 3).
Proof.
  revert raw.
  apply (triplets_ind (λ raw,
    length (concat (np_delete_axis1 2 (triplets raw)))
    = 2 * (length raw / 3))).
  - reflexivity.
  - intros b0 b1 b2 l IH. cbn [triplets np_delete_axis1 fmap list_fmap concat delete list_delete app
         length].
    fold (np_delete_axis1 2 (triplets l)). rewrite IH.
    assert (S (S (S (length l))) = length l + 1 * 3) as -> by lia.
    rewrite Nat.div_add by lia. lia.
Qed.

(** ** [convert_y12_to_y8] *)

Lemma assign_row_elems (kept old : list Z) (a c : nat) :
  a + c ≤ length kept →
  take a (take a kept ++ drop a old) ++ take c (drop a kept)
    ++ drop (a + c) (take a kept ++ drop a old)
  = take (a + c) kept ++ drop (a + c) old.
Proof.
  intros Hlen.
  assert (length (take a kept) = a) as Ha by (rewrite length_take; lia).
  rewrite take_app_length' by (symmetry; exact Ha).
  rewrite drop_app_ge by lia. rewrite Ha, drop_drop.
  assert (a + (a + c - a) = a + c) as -> by lia.
  rewrite app_assoc, take_take_drop. reflexivity.
Qed.

(** The unpacker on a frame that brings enough bytes for the session's
    buffer: the first [row * column] kept bytes replace the head of the
    buffer. *)
Lemma convert_y12_to_y8_run (frame : Frame) (st : Conversion) (y8 : Mat)
    (row column : nat) :
  shape frame = (row, column) →
  y8_frame st = Some y8 →
  rows y8 = row →
  cols y8 = column →
  length (tobytes frame) `mod` 3 = 0 →
  row * column ≤ 2 * (length (tobytes frame) / 3) →
  let kept := concat (np_delete_axis1 2 (triplets (tobytes frame))) in
  let out :=
    mkMat row column (take (row * column) kept ++ drop (row * column) (elems y8))
  in
  convert_y12_to_y8 frame st
  = (Ok (OMat out),
     mkConversion (format_type st) (y16CameraFlag st) (Some out)).
Proof.
  intros Hshape Hy8 Hrows Hcols Hmod Hlen kept out.
  assert (length kept = 2 * (length (tobytes frame) / 3)) as Hkept
    by (apply kept_bytes_length; exact Hmod).
  unfold convert_y12_to_y8. rewrite Hshape.
  unfold np_reshape_m1_3. rewrite bool_decide_eq_true_2 by exact Hmod.
  unfold lift, mbind, M_bind. fold kept.
  set (I := λ (k m : nat) (st' : Conversion),
         m = k * column ∧
         st' = mkConversion (format_type st) (y16CameraFlag st)
                 (Some (mkMat row column
                          (take (k * column) kept
                             ++ drop (k * column) (elems y8))))).
  destruct (for_eachM_inv I (seq 0 row) (y12_to_y8_row kept column) 0 st)
    as (m & st' & Hrun & Hm & Hst').
  - split; [reflexivity |].
    destruct st as [ft fl yy], y8 as [r c e]; cbn in *. subst. reflexivity.
  - intros k x m st1 Hk [-> ->].
    apply lookup_seq in Hk as [-> Hk]. cbn [Nat.add] in *.
    assert (k * column + column ≤ length kept) by nia.
    exists (k * column + column), (mkConversion (format_type st)
      (y16CameraFlag st) (Some (mkMat row column
         (take (S k * column) kept ++ drop (S k * column) (elems y8))))).
    split; [| split; [lia | reflexivity]].
    unfold y12_to_y8_row, setitem_row, py_slice.
    cbn [y8_frame rows cols elems format_type y16CameraFlag].
    rewrite bool_decide_eq_true_2 by exact Hk.
    rewrite bool_decide_eq_true_2
      by (rewrite length_take, length_drop; lia).
    do 4 f_equal.
    assert (k * column + column - k * column = column) as -> by lia.
    assert ((k + 1) * column = k * column + column) as -> by lia.
    assert (S k * column = k * column + column) as -> by lia.
    apply assign_row_elems. lia.
  - rewrite Hrun. rewrite length_seq in Hst'. subst st'.
    unfold get_y8_frame. reflexivity.
Qed.

Lemma pairs_ind (P : list Z → Prop) :
  P [] →
  (∀ s0 s1 l, P l → P (s0 :: s1 :: l)) →
  ∀ l, Nat.Even (length l) → P l.
Proof.
  intros Hnil Hcons l.
  remember (length l) as n eqn:Hn. revert l Hn.
  induction n as [n IH] using lt_wf_ind. intros l Hn Heven.
  destruct l as [|s0 [|s1 l]]; cbn [length] in Hn; subst n.
  - exact Hnil.
  - destruct Heven as [k Hk]. lia.
  - apply Hcons. apply (IH (length l)); [lia | reflexivity |].
    destruct Heven as [k Hk]. exists (k - 1). lia.
Qed.

Lemma pack_y12_length (smp : list Z) :
  Nat.Even (length smp) → length (pack_y12 smp) = 3 * (length smp / 2).
Proof.
  revert smp.
  apply (pairs_ind (λ smp, length (pack_y12 smp) = 3 * (length smp / 2))).
  - reflexivity.
  - intros s0 s1 l IH. cbn [pack_y12 pack_pair app length]. rewrite IH.
    assert (S (S (length l)) = length l + 1 * 2) as -> by lia.
    rewrite Nat.div_add by lia. lia.
Qed.

(** Where the upper eight bits of sample [n] sit in the packed bytes. *)
Lemma pack_y12_lookup (smp : list Z) (n : nat) (s : Z) :
  Nat.Even (length smp) →
  smp !! n = Some s →
  pack_y12 smp !! (3 * (n / 2) + n `mod` 2) = Some (Z.shiftr s 4).
Proof.
  intros Heven. revert smp Heven n.
  apply (pairs_ind (λ smp, ∀ n, smp !! n = Some s →
    pack_y12 smp !! (3 * (n / 2) + n `mod` 2) = Some (Z.shiftr s 4))).
  - intros n Hn. rewrite lookup_nil in Hn. discriminate.
  - intros s0 s1 l IH n Hn. cbn [pack_y12 pack_pair app].
    destruct n as [|[|n]].
    + cbn in Hn. injection Hn as ->. reflexivity.
    + cbn in Hn. injection Hn as ->. reflexivity.
    + cbn [lookup list_lookup] in Hn.
      assert (S (S n) = n + 1 * 2) as -> by lia.
      rewrite Nat.div_add, Nat.Div0.mod_add by lia.
      assert (3 * (n / 2 + 1) + n `mod` 2
              = S (S (S (3 * (n / 2) + n `mod` 2)))) as -> by lia.
      cbn [lookup list_lookup]. apply IH. exact Hn.
Qed.

(** The entries of the returned buffer, read back from the bytes of the
    frame. *)
Lemma convert_y12_to_y8_entries (frame : Frame)
    (st : Conversion) (y8 : Mat) (row column : nat) :
  shape frame = (row, column) →
  y8_frame st = Some y8 →
  rows y8 = row →
  cols y8 = column →
  length (tobytes frame) `mod` 3 = 0 →
  row * column ≤ 2 * (length (tobytes frame) / 3) →
  ∃ out,
    convert_y12_to_y8 frame st
    = (Ok (OMat out),
       mkConversion (format_type st) (y16CameraFlag st) (Some out))
    ∧ rows out = row ∧ cols out = column
    ∧ ∀ i j, i < row → j < column →
        ∃ b, tobytes frame
               !! (3 * ((i * column + j) / 2) + (i * column + j) `mod` 2)
             = Some b
             ∧ mat_get out i j = Ok b.
Proof.
  intros Hshape Hy8 Hrows Hcols Hmod Hlen.
  eexists. split; [| split; [| split]].
  - apply (convert_y12_to_y8_run frame st y8 row column); assumption.
  - reflexivity.
  - reflexivity.
  - intros i j Hi Hj.
    pose proof (kept_bytes_length _ Hmod) as Hkept.
    assert (i * column + j < row * column) as Hn by nia.
    rewrite <- (kept_bytes_lookup _ _ Hmod).
    destruct (lookup_lt_is_Some_2
                (concat (np_delete_axis1 2 (triplets (tobytes frame))))
                (i * column + j)) as [b Hb]; [lia |].
    exists b. split; [exact Hb |].
    unfold mat_get. cbn [rows cols elems].
    rewrite bool_decide_eq_true_2 by (split; assumption).
    rewrite lookup_app_l by (rewrite length_take; lia).
    rewrite lookup_take_lt by exact Hn. rewrite Hb. reflexivity.
Qed.

(** C1: on a frame whose bytes are the packed form of [row * column]
    12-bit samples (two samples to a triplet, possibly followed by unused
    bytes), and with the session's buffer of the shape of the frame, the
    unpacker returns the [row] by [column] buffer in which every entry is
    the upper eight bits of the sample at the same position, an 8-bit
    value. *)
Theorem convert_y12_to_y8_high_bytes (frame : Frame) (st : Conversion)
    (y8 : Mat) (row column : nat) (smp rest : list Z) :
  shape frame = (row, column) →
  y8_frame st = Some y8 →
  rows y8 = row →
  cols y8 = column →
  length smp = row * column →
  Nat.Even (row * column) →
  Forall (λ s, (0 ≤ s < 4096)%Z) smp →
  tobytes frame = pack_y12 smp ++ rest →
  length rest `mod` 3 = 0 →
  ∃ out,
    convert_y12_to_y8 frame st
    = (Ok (OMat out),
       mkConversion (format_type st) (y16CameraFlag st) (Some out))
    ∧ rows out = row ∧ cols out = column
    ∧ ∀ i j, i < row → j < column →
        ∃ s, smp !! (i * column + j) = Some s
             ∧ mat_get out i j = Ok (Z.shiftr s 4)
             ∧ (0 ≤ Z.shiftr s 4 < 256)%Z.
Proof.
  intros Hshape Hy8 Hrows Hcols Hsmp Heven Hrange Hraw Hrest.
  assert (Nat.Even (length smp)) as Heven' by (rewrite Hsmp; exact Heven).
  pose proof (pack_y12_length smp Heven') as Hpack.
  assert (length (tobytes frame) = 3 * (length smp / 2) + length rest) as Hlen
    by (rewrite Hraw, length_app, Hpack; reflexivity).
  assert (length smp = 2 * (length smp / 2)) as Hhalf.
  { destruct Heven' as [k Hk]. rewrite Hk.
    rewrite (Nat.mul_comm 2 k), Nat.div_mul by lia. lia. }
  assert (length (tobytes frame) `mod` 3 = 0) as Hmod.
  { rewrite Hlen, (Nat.mul_comm 3), Nat.add_comm, Nat.Div0.mod_add.
    exact Hrest. }
  assert (row * column ≤ 2 * (length (tobytes frame) / 3)) as Hroom.
  { rewrite Hlen, (Nat.mul_comm 3), Nat.add_comm, Nat.div_add by lia. lia. }
  destruct (convert_y12_to_y8_entries frame st y8 row column
              Hshape Hy8 Hrows Hcols Hmod Hroom)
    as (out & Hrun & Hr & Hc & Hget).
  exists out. split; [exact Hrun |]. split; [exact Hr |]. split; [exact Hc |].
  intros i j Hi Hj.
  assert (i * column + j < length smp) as Hn by (rewrite Hsmp; nia).
  destruct (lookup_lt_is_Some_2 smp _ Hn) as [s Hs].
  exists s. split; [exact Hs |].
  destruct (Hget i j Hi Hj) as (b & Hb & Hout).
  rewrite Hraw, lookup_app_l in Hb.
  2:{ rewrite Hpack.
      pose proof (Nat.Div0.div_le_mono _ _ 2 (Nat.lt_le_incl _ _ Hn)).
      pose proof (Nat.mod_upper_bound (i * column + j) 2).
      pose proof (Nat.Div0.div_mod (i * column + j) 2). lia. }
  rewrite (pack_y12_lookup smp _ s Heven' Hs) in Hb. injection Hb as <-.
  split; [exact Hout |].
  rewrite Forall_lookup in Hrange. specialize (Hrange _ _ Hs).
  rewrite Z.shiftr_div_pow2 by lia. change (2 ^ 4)%Z with 16%Z.
  split; [apply Z.div_pos; lia | apply Z.div_lt_upper_bound; lia].
Qed.

(** C5, as amended: the unpacker keeps the first two bytes of every
    triplet of the flattened frame and drops the third one (index 2, the
    byte holding the low nibbles); the kept bytes fill the rows of the
    session's buffer in order, [column] bytes to a row, so that the entry
    at row-major position [n] is byte [n mod 2] of triplet [n / 2]. *)
Theorem convert_y12_to_y8_keeps_leading_bytes (frame : Frame)
    (st : Conversion) (y8 : Mat) (row column : nat) :
  shape frame = (row, column) →
  y8_frame st = Some y8 →
  rows y8 = row →
  cols y8 = column →
  length (tobytes frame) `mod` 3 = 0 →
  row * column ≤ 2 * (length (tobytes frame) / 3) →
  ∃ out,
    convert_y12_to_y8 frame st
    = (Ok (OMat out),
       mkConversion (format_type st) (y16CameraFlag st) (Some out))
    ∧ rows out = row ∧ cols out = column
    ∧ ∀ i j, i < row → j < column →
        ∃ b, tobytes frame
               !! (3 * ((i * column + j) / 2) + (i * column + j) `mod` 2)
             = Some b
             ∧ mat_get out i j = Ok b.
Proof. apply convert_y12_to_y8_entries. Qed.

Lemma convert_y12_to_y8_keeps_leading_bytes_witness :
  ∃ out,
    convert_y12_to_y8 frame_ABCDEF session_y12_2x1
    = (Ok (OMat out), mkConversion (PyStr "Y12 ") (-1) (Some out))
    ∧ rows out = 1 ∧ cols out = 2
    ∧ ∀ i j, i < 1 → j < 2 →
        ∃ b, tobytes frame_ABCDEF
               !! (3 * ((i * 2 + j) / 2) + (i * 2 + j) `mod` 2)
             = Some b
             ∧ mat_get out i j = Ok b.
Proof.
  apply (convert_y12_to_y8_keeps_leading_bytes frame_ABCDEF session_y12_2x1
           (np_zeros2 1 2) 1 2); reflexivity.
Defined.

(** The unpacker does not follow the wording of section 4.3 (C5): on the
    triplet [0xAB, 0xCD, 0xEF] it returns [0xAB, 0xCD], where dropping
    the middle byte would leave [0xAB, 0xEF]. *)
Lemma convert_y12_to_y8_not_as_worded :
  (convert_y12_to_y8 frame_ABCDEF session_y12_2x1).1
  = Ok (OMat (mkMat 1 2 [0xAB; 0xCD]%Z))
  ∧ y12_to_y8_as_worded frame_ABCDEF (np_zeros2 1 2)
    = mkMat 1 2 [0xAB; 0xEF]%Z
  ∧ (convert_y12_to_y8 frame_ABCDEF session_y12_2x1).1
    ≠ Ok (OMat (y12_to_y8_as_worded frame_ABCDEF (np_zeros2 1 2))).
Proof.
  split; [reflexivity |]. split; [reflexivity |].
  vm_compute. discriminate.
Qed.

Lemma convert_y12_to_y8_high_bytes_witness :
  ∃ out,
    convert_y12_to_y8 frame_ABCDEF session_y12_2x1
    = (Ok (OMat out), mkConversion (PyStr "Y12 ") (-1) (Some out))
    ∧ rows out = 1 ∧ cols out = 2
    ∧ ∀ i j, i < 1 → j < 2 →
        ∃ s, [0xABF; 0xCDE]%Z !! (i * 2 + j) = Some s
             ∧ mat_get out i j = Ok (Z.shiftr s 4)
             ∧ (0 ≤ Z.shiftr s 4 < 256)%Z.
Proof.
  apply (convert_y12_to_y8_high_bytes frame_ABCDEF session_y12_2x1
           (np_zeros2 1 2) 1 2 [0xABF; 0xCDE]%Z []); try reflexivity.
  - exists 1. reflexivity.
  - repeat constructor; lia.
Defined.

(** ** [convert_y12_for_still] *)

(** Masks and shifts as quotients and remainders. *)
Lemma land_0F (b : Z) : Z.land b 0x0F = (b `mod` 16)%Z.
Proof. change 0x0F%Z with (Z.ones 4). rewrite Z.land_ones by lia. reflexivity. Qed.

Lemma shiftr_land_F0 (b : Z) :
  Z.shiftr (Z.land b 0xF0) 4 = ((b / 16) `mod` 16)%Z.
Proof.
  rewrite Z.shiftr_land. change (Z.shiftr 0xF0 4) with (Z.ones 4).
  rewrite Z.land_ones, Z.shiftr_div_pow2 by lia. reflexivity.
Qed.

Lemma shiftl_4 (x : Z) : Z.shiftl x 4 = (x * 16)%Z.
Proof. rewrite Z.shiftl_mul_pow2 by lia. reflexivity. Qed.

Lemma to_uint8_id (v : Z) : (0 ≤ v < 256)%Z → to_uint8 v = v.
Proof. intros H. unfold to_uint8. apply Z.mod_small. exact H. Qed.

(** Every byte of [padded_quad] fits the [np.uint8] buffer. *)
Lemma padded_quad_uint8 (b0 b1 b2 : Z) :
  Forall (λ v, to_uint8 v = v) (padded_quad b0 b1 b2).
Proof.
  unfold padded_quad.
  repeat constructor; apply to_uint8_id;
    rewrite ?shiftr_land_F0, ?shiftl_4, ?land_0F;
    pose proof (Z.mod_pos_bound b0 16);
    pose proof (Z.mod_pos_bound b1 16);
    pose proof (Z.mod_pos_bound b2 16);
    pose proof (Z.mod_pos_bound (b0 / 16) 16);
    pose proof (Z.mod_pos_bound (b1 / 16) 16);
    pose proof (Z.mod_pos_bound (b2 / 16) 16); lia.
Qed.

Lemma store_quad_length buf k q0 q1 q2 q3 :
  length (store_quad buf k q0 q1 q2 q3) = length buf.
Proof. unfold store_quad. rewrite !length_insert. reflexivity. Qed.

Lemma store_quad_lookup buf k q0 q1 q2 q3 o :
  k + 3 < length buf → o < 4 →
  store_quad buf k q0 q1 q2 q3 !! (k + o) = [q0; q1; q2; q3] !! o.
Proof.
  intros Hk Ho. unfold store_quad.
  destruct o as [|[|[|[|o]]]]; [| | | | lia]; cbn [lookup list_lookup].
  - rewrite Nat.add_0_r.
    rewrite list_lookup_insert_ne, list_lookup_insert_ne by lia.
    apply list_lookup_insert_eq. rewrite length_insert. lia.
  - rewrite list_lookup_insert_ne, list_lookup_insert_ne,
      list_lookup_insert_ne by lia.
    apply list_lookup_insert_eq. lia.
  - apply list_lookup_insert_eq. rewrite !length_insert. lia.
  - rewrite list_lookup_insert_ne by lia.
    apply list_lookup_insert_eq. rewrite !length_insert. lia.
Qed.

Lemma store_quad_lookup_other buf k q0 q1 q2 q3 n :
  n < k ∨ k + 4 ≤ n →
  store_quad buf k q0 q1 q2 q3 !! n = buf !! n.
Proof.
  intros Hn. unfold store_quad.
  rewrite !list_lookup_insert_ne by lia. reflexivity.
Qed.

(** One pass of the inner loop on a triplet that is there, with room for
    its four bytes. *)
Lemma y12_for_still_body_ok (raw : list Z) (stride j i : nat)
    (buf : list Z) (m : nat) (b0 b1 b2 : Z) :
  raw !! m = Some b0 →
  raw !! (m + 1) = Some b1 →
  raw !! (m + 2) = Some b2 →
  stride * j + i + 3 < length buf →
  y12_for_still_body raw stride j i (buf, m)
  = Ok (store_quad buf (stride * j + i)
          (Z.shiftl (Z.land b0 0x0F) 4 + Z.land b2 0x0F)%Z
          (Z.shiftr (Z.land b0 0xF0) 4)
          (Z.shiftl (Z.land b1 0x0F) 4 + Z.shiftr (Z.land b2 0xF0) 4)%Z
          (Z.shiftr (Z.land b1 0xF0) 4),
        m + 3).
Proof.
  intros H0 H1 H2 Hroom.
  pose proof (padded_quad_uint8 b0 b1 b2) as Hq. unfold padded_quad in Hq.
  apply Forall_cons in Hq as [Hq0 Hq].
  apply Forall_cons in Hq as [Hq1 Hq].
  apply Forall_cons in Hq as [Hq2 Hq].
  apply Forall_cons in Hq as [Hq3 _].
  unfold y12_for_still_body, bytes_get, buf_set.
  rewrite H0, H1, H2. cbn [mbind res_bind].
  rewrite bool_decide_eq_true_2 by lia. cbn [mbind res_bind].
  rewrite bool_decide_eq_true_2 by (rewrite !length_insert; lia).
  cbn [mbind res_bind].
  rewrite bool_decide_eq_true_2 by (rewrite !length_insert; lia).
  cbn [mbind res_bind].
  rewrite bool_decide_eq_true_2 by (rewrite !length_insert; lia).
  cbn [mbind res_bind mret res_ret].
  rewrite (Z.land_comm 0xF0 b0), (Z.land_comm 0xF0 b1).
  rewrite Hq0, Hq1, Hq2, Hq3. reflexivity.
Qed.

Lemma still_inv_step (raw : list Z) (h row stride j k : nat)
    (s : list Z * nat) :
  stride = 4 * h →
  3 * (row * h) ≤ length raw →
  j < row → k < h →
  still_inv raw (4 * (row * h)) (j * h + k) s →
  ∃ s', y12_for_still_body raw stride j (k * 4) s = Ok s'
        ∧ still_inv raw (4 * (row * h)) (j * h + S k) s'.
Proof.
  intros -> Hraw Hj Hk (Hm & Hlen & Hdone). destruct s as [buf m].
  cbn [fst snd] in *. subst m.
  set (t := j * h + k) in *.
  assert (t < row * h) as Ht by (unfold t; nia).
  destruct (lookup_lt_is_Some_2 raw (3 * t)) as [b0 H0]; [lia |].
  destruct (lookup_lt_is_Some_2 raw (3 * t + 1)) as [b1 H1]; [lia |].
  destruct (lookup_lt_is_Some_2 raw (3 * t + 2)) as [b2 H2]; [lia |].
  assert (4 * h * j + k * 4 = 4 * t) as Hoff by (unfold t; lia).
  eexists. split.
  - apply (y12_for_still_body_ok raw _ _ _ buf (3 * t) b0 b1 b2);
      [exact H0 | exact H1 | exact H2 | lia].
  - rewrite Hoff. split; [cbn; unfold t; lia |].
    split; [cbn [fst]; rewrite store_quad_length; exact Hlen |].
    cbn [fst]. intros u q o Hu Hq Ho.
    destruct (decide (u = t)) as [->|Hne].
    + unfold quad_at in Hq. rewrite H0, H1, H2 in Hq. cbn in Hq.
      injection Hq as <-.
      rewrite store_quad_lookup by lia. reflexivity.
    + rewrite store_quad_lookup_other by (unfold t in *; lia).
      apply Hdone; [unfold t in *; lia | exact Hq | exact Ho].
Qed.

(** The routine on a frame of even width that brings all its triplets. *)
Lemma convert_y12_for_still_run (frame : Frame) (row h : nat) :
  shape frame = (row, 2 * h) →
  3 * (row * h) ≤ length (tobytes frame) →
  ∃ out, convert_y12_for_still frame = Ok out
         ∧ still_inv (tobytes frame) (4 * (row * h)) (row * h) (out, 3 * (row * h)).
Proof.
  intros Hshape Hraw. unfold convert_y12_for_still. rewrite Hshape.
  assert (2 * h * 2 = h * 4) as -> by lia.
  rewrite py_range_exact by lia.
  set (raw := tobytes frame) in *.
  destruct (for_each_inv
              (λ j s, still_inv raw (4 * (row * h)) (j * h) s)
              (seq 0 row)
              (λ j, for_each ((λ k, k * 4) <$> seq 0 h)
                      (y12_for_still_body raw (h * 4) j))
              (replicate (row * (2 * h) * 2) 0%Z, 0))
    as (s & Hrun & Hinv).
  - split; [reflexivity |]. split; [cbn [fst]; rewrite length_replicate; lia |].
    intros u q o Hu. lia.
  - intros j x s Hx Hs. apply lookup_seq in Hx as [-> Hj]. cbn [Nat.add].
    destruct (for_each_inv
                (λ k s, still_inv raw (4 * (row * h)) (j * h + k) s)
                ((λ k, k * 4) <$> seq 0 h)
                (y12_for_still_body raw (h * 4) j) s)
      as (s' & Hrun' & Hinv').
    + rewrite Nat.add_0_r. exact Hs.
    + intros k x s1 Hx Hs1. rewrite list_lookup_fmap in Hx.
      destruct (seq 0 h !! k) as [k'|] eqn:Hk; [| discriminate].
      apply lookup_seq in Hk as [-> Hk]. cbn in Hx. injection Hx as <-.
      apply (still_inv_step raw h row); [lia | exact Hraw | exact Hj | exact Hk
                                         | exact Hs1].
    + exists s'. split; [exact Hrun' |].
      rewrite length_fmap, length_seq in Hinv'.
      assert (S j * h = j * h + h) as -> by lia. exact Hinv'.
  - rewrite Hrun. cbn [mbind res_bind mret res_ret].
    rewrite length_seq in Hinv. exists s.1. split; [reflexivity |].
    destruct Hinv as (Hm & Hlen & Hq). destruct s as [buf m]. cbn in *.
    subst m. split; [reflexivity |]. split; [exact Hlen | exact Hq].
Qed.

(** C2: on a frame of even width that brings all its packed triplets, the
    still-capture routine returns a new buffer of [row * column * 2]
    bytes in which triplet [t] of the input, [(b0, b1, b2)], fills the
    four bytes from offset [k = 4 * t] on in the arrangement of
    section 4.5. *)
Theorem convert_y12_for_still_layout (frame : Frame) (row column : nat) :
  shape frame = (row, column) →
  Nat.Even column →
  3 * (row * column / 2) ≤ length (tobytes frame) →
  ∃ out,
    convert_y12_for_still frame = Ok out
    ∧ length out = row * column * 2
    ∧ ∀ t b0 b1 b2,
        t < row * column / 2 →
        tobytes frame !! (3 * t) = Some b0 →
        tobytes frame !! (3 * t + 1) = Some b1 →
        tobytes frame !! (3 * t + 2) = Some b2 →
        let k := 4 * t in
        out !! (k + 1) = Some (Z.shiftr (Z.land b0 0xF0) 4)
        ∧ out !! k = Some (Z.shiftl (Z.land b0 0x0F) 4 + Z.land b2 0x0F)%Z
        ∧ out !! (k + 3) = Some (Z.shiftr (Z.land b1 0xF0) 4)
        ∧ out !! (k + 2)
          = Some (Z.shiftl (Z.land b1 0x0F) 4 + Z.shiftr (Z.land b2 0xF0) 4)%Z.
Proof.
  intros Hshape [h ->] Hraw.
  assert (row * (2 * h) / 2 = row * h) as Hhalf.
  { assert (row * (2 * h) = row * h * 2) as -> by lia.
    apply Nat.div_mul. lia. }
  rewrite Hhalf in *.
  destruct (convert_y12_for_still_run frame row h Hshape Hraw)
    as (out & Hrun & _ & Hlen & Hq).
  cbn [fst snd] in Hlen, Hq.
  exists out. split; [exact Hrun |]. split; [lia |].
  intros t b0 b1 b2 Ht H0 H1 H2 k.
  assert (quad_at (tobytes frame) t = Some (padded_quad b0 b1 b2)) as Hquad
    by (unfold quad_at; rewrite H0, H1, H2; reflexivity).
  pose proof (Hq t _ 0 Ht Hquad) as Hq0.
  pose proof (Hq t _ 1 Ht Hquad) as Hq1.
  pose proof (Hq t _ 2 Ht Hquad) as Hq2.
  pose proof (Hq t _ 3 Ht Hquad) as Hq3.
  rewrite Nat.add_0_r in Hq0. unfold k.
  rewrite Hq0, Hq1, Hq2, Hq3 by lia. repeat split; reflexivity.
Qed.

Lemma convert_y12_for_still_layout_witness :
  ∃ out,
    convert_y12_for_still frame_ABCDEF = Ok out
    ∧ length out = 1 * 2 * 2
    ∧ ∀ t b0 b1 b2,
        t < 1 * 2 / 2 →
        tobytes frame_ABCDEF !! (3 * t) = Some b0 →
        tobytes frame_ABCDEF !! (3 * t + 1) = Some b1 →
        tobytes frame_ABCDEF !! (3 * t + 2) = Some b2 →
        let k := 4 * t in
        out !! (k + 1) = Some (Z.shiftr (Z.land b0 0xF0) 4)
        ∧ out !! k = Some (Z.shiftl (Z.land b0 0x0F) 4 + Z.land b2 0x0F)%Z
        ∧ out !! (k + 3) = Some (Z.shiftr (Z.land b1 0xF0) 4)
        ∧ out !! (k + 2)
          = Some (Z.shiftl (Z.land b1 0x0F) 4 + Z.shiftr (Z.land b2 0xF0) 4)%Z.
Proof.
  apply (convert_y12_for_still_layout frame_ABCDEF 1 2).
  - reflexivity.
  - exists 1. reflexivity.
  - vm_compute. lia.
Defined.

(** The routine on a single packed pair. *)
Lemma convert_y12_for_still_pair (s0 s1 : Z) :
  convert_y12_for_still (frame_of_pair s0 s1)
  = Ok (padded_quad (Z.shiftr s0 4) (Z.shiftr s1 4)
          (Z.land s0 0x0F + Z.shiftl (Z.land s1 0x0F) 4)%Z).
Proof.
  destruct (convert_y12_for_still_run (frame_of_pair s0 s1) 1 1)
    as (out & Hrun & _ & Hlen & Hq); [reflexivity | cbn; lia |].
  rewrite Hrun. f_equal. cbn [fst] in *.
  apply list_eq. intros o.
  destruct (decide (o < 4)) as [Ho|Ho].
  - exact (Hq 0 _ o Nat.lt_0_1 eq_refl Ho).
  - rewrite !lookup_ge_None_2; [reflexivity | cbn; lia | lia].
Qed.

Lemma unpad_padded_pair (s0 s1 : Z) :
  (0 ≤ s0 < 4096)%Z → (0 ≤ s1 < 4096)%Z →
  unpad_quad (padded_quad (Z.shiftr s0 4) (Z.shiftr s1 4)
                (Z.land s0 0x0F + Z.shiftl (Z.land s1 0x0F) 4)%Z)
  = Some (s0, s1).
Proof.
  intros H0 H1. unfold unpad_quad, padded_quad.
  rewrite !shiftr_land_F0, !shiftl_4, !land_0F.
  rewrite !Z.shiftl_mul_pow2, !Z.shiftr_div_pow2 by lia.
  change (2 ^ 4)%Z with 16%Z. change (2 ^ 8)%Z with 256%Z.
  do 2 f_equal; Z.to_euclidean_division_equations; lia.
Qed.

(** C7: for two 12-bit samples the routine, run on their packed triplet,
    yields four bytes from which the reversed nibble arrangement gives
    the two samples back; hence no other pair of 12-bit samples yields
    the same four bytes. *)
Theorem convert_y12_for_still_injective (s0 s1 : Z) :
  (0 ≤ s0 < 4096)%Z → (0 ≤ s1 < 4096)%Z →
  ∃ out,
    convert_y12_for_still (frame_of_pair s0 s1) = Ok out
    ∧ length out = 4
    ∧ unpad_quad out = Some (s0, s1)
    ∧ ∀ s0' s1', (0 ≤ s0' < 4096)%Z → (0 ≤ s1' < 4096)%Z →
        (s0', s1') ≠ (s0, s1) →
        convert_y12_for_still (frame_of_pair s0' s1') ≠ Ok out.
Proof.
  intros H0 H1. eexists. split; [apply convert_y12_for_still_pair |].
  split; [reflexivity |]. split; [apply unpad_padded_pair; assumption |].
  intros s0' s1' H0' H1' Hne Heq.
  rewrite convert_y12_for_still_pair in Heq. injection Heq as Heq.
  apply Hne.
  pose proof (unpad_padded_pair s0' s1' H0' H1') as Hu'.
  pose proof (unpad_padded_pair s0 s1 H0 H1) as Hu.
  unfold padded_quad in Hu, Hu'. rewrite Heq in Hu'. congruence.
Qed.

Lemma convert_y12_for_still_injective_witness :
  ∃ out,
    convert_y12_for_still (frame_of_pair 0xABF 0xCDE) = Ok out
    ∧ length out = 4
    ∧ unpad_quad out = Some (0xABF, 0xCDE)%Z
    ∧ ∀ s0' s1', (0 ≤ s0' < 4096)%Z → (0 ≤ s1' < 4096)%Z →
        (s0', s1') ≠ (0xABF, 0xCDE)%Z →
        convert_y12_for_still (frame_of_pair s0' s1') ≠ Ok out.
Proof.
  apply (convert_y12_for_still_injective 0xABF 0xCDE); lia.
Defined.

(** ** [convert_frame] and [convert_y16_to_rgb] *)

Lemma pyval_eqb_eq (a b : pyval) : pyval_eqb a b = true ↔ a = b.
Proof.
  destruct a as [x|x], b as [y|y]; cbn; split; try discriminate.
  - intros H. apply Z.eqb_eq in H. congruence.
  - intros [= ->]. apply Z.eqb_refl.
  - intros H. apply String.eqb_eq in H. congruence.
  - intros [= ->]. apply String.eqb_refl.
Qed.

Lemma pyval_eqb_neq (a b : pyval) : a ≠ b → pyval_eqb a b = false.
Proof.
  intros H. destruct (pyval_eqb a b) eqn:E; [| reflexivity].
  apply pyval_eqb_eq in E. contradiction.
Qed.

Section ConvertFrame.

Context (cvtColor_YUV2BGR : yuv_code → Frame → res Image)
        (cvtColor_BayerRG2BGR : Mat → res Image)
        (scale_abs : Q → Z → Z).

Local Abbreviation convert_frame' :=
  (convert_frame cvtColor_YUV2BGR cvtColor_BayerRG2BGR scale_abs).
Local Abbreviation convert_y16_to_rgb' :=
  (convert_y16_to_rgb cvtColor_BayerRG2BGR scale_abs).
Local Abbreviation convert_func' :=
  (convert_func cvtColor_BayerRG2BGR scale_abs).

(** C10: when the session's [format_type] is "UYVY" or "YUY2",
    [convert_frame] returns the YUV-to-BGR conversion of that layout
    whatever [frame_format] it is given, so the tag of the call has no
    part in the result. *)
Theorem convert_frame_session_yuv (frame : Frame) (frame_format : string)
    (st : Conversion) (code : yuv_code) :
  format_type st = PyStr (yuv_name code) →
  convert_frame' frame frame_format st
  = (img ← cvtColor_YUV2BGR code frame; mret (OImage img), st)
  ∧ ∀ other_format,
      convert_frame' frame other_format st
      = convert_frame' frame frame_format st.
Proof.
  intros Hfmt.
  assert (∀ tag, convert_frame' frame tag st
                 = (img ← cvtColor_YUV2BGR code frame; mret (OImage img), st))
    as Hall.
  { intros tag. unfold convert_frame. rewrite Hfmt.
    destruct code; reflexivity. }
  split; [apply Hall |]. intros other. rewrite !Hall. reflexivity.
Qed.

(** With any other session format the tag of the call picks the
    routine out of the dictionary. *)
Lemma convert_frame_by_tag (frame : Frame) (frame_format : string)
    (st : Conversion) :
  format_type st ≠ PyStr "UYVY" →
  format_type st ≠ PyStr "YUY2" →
  convert_frame' frame frame_format st
  = call1 (dict_get convert_func' frame_format
             (Lambda0 (OStr "Invalid Selection"))) frame st.
Proof.
  intros H1 H2. unfold convert_frame.
  rewrite (pyval_eqb_neq _ _ H1), (pyval_eqb_neq _ _ H2). reflexivity.
Qed.

(** A tag outside the dictionary reaches the fallback, which takes no
    argument: the call [func(frame)] raises [TypeError]. *)
Lemma convert_frame_unknown_tag (frame : Frame) (frame_format : string)
    (st : Conversion) :
  format_type st ≠ PyStr "UYVY" →
  format_type st ≠ PyStr "YUY2" →
  frame_format ≠ "Y12 "%string →
  frame_format ≠ "Y16 "%string →
  convert_frame' frame frame_format st = (Raise TypeError, st).
Proof.
  intros H1 H2 H3 H4. rewrite convert_frame_by_tag by assumption.
  unfold dict_get, convert_func. cbn [List.find fst snd].
  assert (String.eqb "Y12 " frame_format = false) as ->
    by (apply String.eqb_neq; congruence).
  assert (String.eqb "Y16 " frame_format = false) as ->
    by (apply String.eqb_neq; congruence).
  reflexivity.
Qed.

(** C4, as amended: with a camera flag that is none of the three known
    variants (as the flag [-1] of the class body), the Y16 routine
    raises nothing and returns [None], the attributes unchanged. *)
Theorem convert_y16_to_rgb_unknown_flag (frame : Frame) (st : Conversion) :
  y16CameraFlag st ≠ SEE3CAM_20CUG →
  y16CameraFlag st ≠ SEE3CAM_CU40 →
  y16CameraFlag st ≠ OTHER_Y16CAMERAS →
  convert_y16_to_rgb' frame st = (Ok ONone, st).
Proof.
  intros H1 H2 H3. unfold convert_y16_to_rgb.
  apply Z.eqb_neq in H1, H2, H3. rewrite H1, H2, H3. reflexivity.
Qed.

End ConvertFrame.

Lemma convert_frame_session_yuv_witness :
  convert_frame black_image demosaic_RGGB scale_abs_exact
    frame_ABCDEF "Y12 " session_uyvy
  = (img ← black_image COLOR_YUV2BGR_UYVY frame_ABCDEF; mret (OImage img),
     session_uyvy)
  ∧ ∀ other_format,
      convert_frame black_image demosaic_RGGB scale_abs_exact
        frame_ABCDEF other_format session_uyvy
      = convert_frame black_image demosaic_RGGB scale_abs_exact
          frame_ABCDEF "Y12 " session_uyvy.
Proof.
  apply (convert_frame_session_yuv black_image demosaic_RGGB scale_abs_exact
           frame_ABCDEF "Y12 " session_uyvy COLOR_YUV2BGR_UYVY).
  reflexivity.
Defined.

(** C3: in a Y12 session the call [convert_frame(frame, "XYZZ")] ends in
    the [TypeError] of calling the parameterless fallback with an
    argument; the string "Invalid Selection" is never handed back. *)
Theorem convert_frame_XYZZ_raises_TypeError :
  convert_frame black_image demosaic_RGGB scale_abs_exact
    frame_ABCDEF "XYZZ" session_y12_2x1
  = (Raise TypeError, session_y12_2x1).
Proof. reflexivity. Qed.

Lemma convert_y16_to_rgb_unknown_flag_witness :
  convert_y16_to_rgb demosaic_RGGB scale_abs_exact frame_y16_2x2 class_body
  = (Ok ONone, class_body).
Proof.
  apply (convert_y16_to_rgb_unknown_flag demosaic_RGGB scale_abs_exact
           frame_y16_2x2 class_body); discriminate.
Defined.

(** The Y16 routine called before any Y16 session was set up raises no
    configuration error (C4): it returns [None]. The same happens in a
    Y12 session when the call is tagged "Y16 ". *)
Lemma convert_y16_to_rgb_unconfigured_returns_None :
  y16CameraFlag class_body = (-1)%Z
  ∧ (convert_y16_to_rgb demosaic_RGGB scale_abs_exact
       frame_y16_2x2 class_body).1 = Ok ONone
  ∧ (∀ e, (convert_y16_to_rgb demosaic_RGGB scale_abs_exact
             frame_y16_2x2 class_body).1 ≠ Raise e)
  ∧ (convert_frame black_image demosaic_RGGB scale_abs_exact
       frame_y16_2x2 "Y16 " session_y12_2x1).1 = Ok ONone.
Proof.
  split; [reflexivity |]. split; [reflexivity |].
  split; [intros e; discriminate | reflexivity].
Qed.

(** ** The scaling of the SEE3CAM_20CUG branch *)

Lemma round_half_even_mono (d n1 n2 : Z) :
  (0 < d)%Z → (n1 ≤ n2)%Z →
  (round_half_even n1 d ≤ round_half_even n2 d)%Z.
Proof.
  intros Hd Hn. unfold round_half_even.
  pose proof (Z.div_le_mono n1 n2 d Hd Hn) as Hq.
  pose proof (Z.div_mod n1 d ltac:(lia)) as E1.
  pose proof (Z.div_mod n2 d ltac:(lia)) as E2.
  pose proof (Z.mod_pos_bound n1 d Hd) as B1.
  pose proof (Z.mod_pos_bound n2 d Hd) as B2.
  destruct (Z.eq_dec (n1 / d)%Z (n2 / d)%Z) as [Heq|Hne].
  - rewrite <- Heq in *.
    assert (n1 `mod` d ≤ n2 `mod` d)%Z by lia.
    repeat match goal with
           | |- context [Z.ltb ?a ?b] => destruct (Z.ltb_spec a b)
           end; destruct (Z.even (n1 / d)%Z); lia.
  - assert (n1 / d + 1 ≤ n2 / d)%Z by lia.
    repeat match goal with
           | |- context [Z.ltb ?a ?b] => destruct (Z.ltb_spec a b)
           end;
      destruct (Z.even (n1 / d)%Z); destruct (Z.even (n2 / d)%Z); lia.
Qed.

Lemma scale_20CUG_mono (x y : Z) :
  (0 ≤ x)%Z → (x ≤ y)%Z → (scale_20CUG x ≤ scale_20CUG y)%Z.
Proof.
  intros Hx Hxy. unfold scale_20CUG, scale_abs_exact, saturate_uint8.
  cbn [Qnum Qden].
  assert (round_half_even (Z.abs (x * 2490234375)) 10000000000
          ≤ round_half_even (Z.abs (y * 2490234375)) 10000000000)%Z
    by (apply round_half_even_mono; lia).
  lia.
Qed.

(** The scaling by 0.2490234375 that section 4.4 describes sends 1023 to
    255 and 0 to 0 and is non-decreasing. *)
Lemma scale_20CUG_as_described :
  scale_20CUG 1023 = 255%Z
  ∧ scale_20CUG 0 = 0%Z
  ∧ ∀ x y, (0 ≤ x)%Z → (x ≤ y)%Z → (scale_20CUG x ≤ scale_20CUG y)%Z.
Proof.
  split; [reflexivity |]. split; [reflexivity |]. apply scale_20CUG_mono.
Qed.

(** With the default factor 1 the modelled scaling only takes the
    absolute value and clamps it. *)
Lemma scale_abs_exact_one (x : Z) :
  scale_abs_exact (Qmake 1 1) x = Z.min 255 (Z.abs x).
Proof.
  unfold scale_abs_exact, round_half_even, saturate_uint8. cbn [Qnum Qden].
  rewrite Z.mul_1_r, Z.div_1_r, Z.mod_1_r.
  change (2 * 0 <? 1)%Z with true. cbv iota. lia.
Qed.

(** The two scaling branches of the Y16 routine return what
    [cv2.convertScaleAbs] makes of the samples with the factor 1: the
    decimal of the source does not reach the scale factor. *)
Lemma convert_y16_to_rgb_scaling_branches
    (cvtColor_BayerRG2BGR : Mat → res Image) (scale_abs : Q → Z → Z)
    (frame : Frame) (st : Conversion) :
  y16CameraFlag st = SEE3CAM_20CUG ∨ y16CameraFlag st = OTHER_Y16CAMERAS →
  convert_y16_to_rgb cvtColor_BayerRG2BGR scale_abs frame st
  = (Ok (OMat (mkMat (shape frame).1 (shape frame).2
                 (scale_abs (Qmake 1 1) <$> samples frame))), st).
Proof.
  intros [H|H]; unfold convert_y16_to_rgb; rewrite H; reflexivity.
Qed.

(** C8: in a SEE3CAM_20CUG session the Y16 routine does not scale by
    0.2490234375. On the samples 0, 512, 1023, 4095 it returns 0, 255,
    255, 255, the samples clamped to 255, where the scaling by the
    decimal gives 0, 128, 255, 255. *)
Theorem convert_y16_to_rgb_20CUG_unscaled :
  convert_y16_to_rgb demosaic_RGGB scale_abs_exact frame_y16_2x2 session_20cug
  = (Ok (OMat (mkMat 2 2 [0; 255; 255; 255]%Z)), session_20cug)
  ∧ scale_20CUG <$> samples frame_y16_2x2 = [0; 128; 255; 255]%Z.
Proof. split; reflexivity. Qed.

(** ** [convert_RGIR_to_RGGB] *)

(** C6: the demosaic routine returns no pair of frames. For every frame,
    uniform or not, the call of [clone] on the scaled array raises
    [AttributeError] before the infrared frame is made and before the
    loops. *)
Theorem convert_RGIR_to_RGGB_raises_AttributeError
    (cvtColor_BayerRG2BGR : Mat → res Image) (scale_abs : Q → Z → Z)
    (frame : Frame) :
  convert_RGIR_to_RGGB cvtColor_BayerRG2BGR scale_abs frame
  = Raise AttributeError.
Proof.
  unfold convert_RGIR_to_RGGB. destruct (shape frame) as [row column].
  reflexivity.
Qed.

(** The same through the dispatcher: in a See3CAM_CU40 session a frame
    tagged "Y16 ", here a uniform 2 by 4 grid, ends in [AttributeError]. *)
Lemma convert_frame_cu40_uniform_raises :
  convert_frame black_image demosaic_RGGB scale_abs_exact
    frame_uniform_2x4 "Y16 " session_cu40
  = (Raise AttributeError, session_cu40).
Proof. reflexivity. Qed.

(** ** Frames whose dimensions do not fit *)

Lemma for_each_preserves {A T : Type} (J : T → Prop) (l : list A)
    (body : A → T → res T) (s s' : T) :
  (∀ y s1 s2, J s1 → body y s1 = Ok s2 → J s2) →
  J s → for_each l body s = Ok s' → J s'.
Proof.
  intros Hbody. revert s. induction l as [|y l IH]; intros s Hs Hrun.
  - cbn in Hrun. injection Hrun as <-. exact Hs.
  - cbn [for_each] in Hrun. destruct (body y s) as [s1|e] eqn:Hy;
      [| discriminate].
    apply (IH s1); [| exact Hrun]. apply (Hbody y s); assumption.
Qed.

Lemma py_range_elem (stop step k : nat) :
  0 < step → k * step < stop → k * step ∈ py_range stop step.
Proof.
  intros Hstep Hk. apply list_elem_of_lookup. exists k.
  apply lookup_py_range; assumption.
Qed.

(** The first row assignment of the unpacker fails when the frame is
    wider or narrower than the session's buffer. *)
Lemma convert_y12_to_y8_width_mismatch (frame : Frame) (st : Conversion)
    (y8 : Mat) (row column : nat) :
  shape frame = (row, column) →
  y8_frame st = Some y8 →
  0 < row → 0 < rows y8 →
  length (tobytes frame) `mod` 3 = 0 →
  row * column ≤ 2 * (length (tobytes frame) / 3) →
  column ≠ cols y8 → column ≠ 1 →
  convert_y12_to_y8 frame st = (Raise ValueError, st).
Proof.
  intros Hshape Hy8 Hrow Hheight Hmod Hlen Hne H1.
  pose proof (kept_bytes_length _ Hmod) as Hkept.
  unfold convert_y12_to_y8. rewrite Hshape.
  unfold np_reshape_m1_3. rewrite bool_decide_eq_true_2 by exact Hmod.
  unfold lift, mbind, M_bind.
  destruct row as [|row]; [lia |]. cbn [seq for_eachM].
  unfold mbind, M_bind, y12_to_y8_row. rewrite Hy8. unfold setitem_row.
  rewrite bool_decide_eq_true_2 by exact Hheight.
  assert (length (py_slice
                    (concat (np_delete_axis1 2 (triplets (tobytes frame))))
                    0 (0 + column)) = column) as Hslice
    by (unfold py_slice; rewrite length_take, length_drop; nia).
  rewrite bool_decide_eq_false_2 by (rewrite Hslice; exact Hne).
  destruct (py_slice _ 0 (0 + column)) as [|v [|w l]]; cbn [length] in Hslice;
    [reflexivity | congruence | reflexivity].
Qed.

(** C9, as amended: the unpacker checks no dimension itself. When the
    frame and the session's buffer both have at least one row, a Y12
    frame that brings the bytes of its own shape and whose column count
    is neither the width of the buffer nor 1 is rejected with a
    [ValueError] by the first row assignment, before anything is written
    to the buffer. *)
Theorem convert_y12_to_y8_width_misfit_rejected (frame : Frame)
    (st : Conversion) (y8 : Mat) (row column : nat) :
  shape frame = (row, column) →
  y8_frame st = Some y8 →
  0 < row →
  0 < rows y8 →
  length (tobytes frame) `mod` 3 = 0 →
  row * column ≤ 2 * (length (tobytes frame) / 3) →
  column ≠ cols y8 →
  column ≠ 1 →
  convert_y12_to_y8 frame st = (Raise ValueError, st).
Proof. apply convert_y12_to_y8_width_mismatch. Qed.

Lemma convert_y12_to_y8_width_misfit_rejected_witness :
  convert_y12_to_y8 frame_1x4 session_y12_2x2
  = (Raise ValueError, session_y12_2x2).
Proof.
  apply (convert_y12_to_y8_width_misfit_rejected frame_1x4 session_y12_2x2
           (np_zeros2 2 2) 1 4);
    [reflexivity | reflexivity | lia | cbn; lia | reflexivity | cbn; lia
    | cbn; lia | lia].
Defined.

(** A frame whose shape is not the session's is not always turned away
    (C9): a 1 by 2 frame in a 2 by 2 session is unpacked into the first
    row of the buffer, and a 3 by 2 frame fills both rows of the buffer
    before the third row assignment raises [IndexError]. *)
Lemma convert_y12_to_y8_misfit_not_rejected :
  shape frame_ABCDEF ≠ (2, 2)
  ∧ convert_y12_to_y8 frame_ABCDEF session_y12_2x2
    = (Ok (OMat (mkMat 2 2 [0xAB; 0xCD; 0; 0]%Z)),
       mkConversion (PyStr "Y12 ") (-1)
         (Some (mkMat 2 2 [0xAB; 0xCD; 0; 0]%Z)))
  ∧ shape frame_3x2 ≠ (2, 2)
  ∧ convert_y12_to_y8 frame_3x2 session_y12_2x2
    = (Raise IndexError,
       mkConversion (PyStr "Y12 ") (-1) (Some (mkMat 2 2 [1; 2; 4; 5]%Z))).
Proof.
  split; [discriminate |]. split; [reflexivity |].
  split; [discriminate | reflexivity].
Qed.

(** * Further properties of the routines *)

(** ** The shared buffer of [convert_y12_to_y8] *)

Lemma session_kept_refl (st : Conversion) : session_kept st st.
Proof.
  unfold session_kept. split; [reflexivity |]. split; [reflexivity |].
  destruct (y8_frame st); [| exact I]. repeat split; auto.
Qed.

Lemma session_kept_trans (st1 st2 st3 : Conversion) :
  session_kept st1 st2 → session_kept st2 st3 → session_kept st1 st3.
Proof.
  unfold session_kept. intros (F1 & G1 & H1) (F2 & G2 & H2).
  split; [congruence |]. split; [congruence |].
  destruct (y8_frame st1), (y8_frame st2), (y8_frame st3);
    try contradiction; [| exact I].
  destruct H1 as (R1 & C1 & W1), H2 as (R2 & C2 & W2).
  split; [congruence |]. split; [congruence | auto].
Qed.

Lemma setitem_row_kept (m m' : Mat) (i : nat) (src : list Z) :
  setitem_row (Some m) i src = Ok (Some m') →
  rows m' = rows m ∧ cols m' = cols m ∧ (mat_wf m → mat_wf m').
Proof.
  unfold setitem_row, mat_wf. intros H.
  destruct (bool_decide (i < rows m)) eqn:Hi; [| discriminate].
  apply bool_decide_eq_true_1 in Hi.
  destruct (bool_decide (length src = cols m)) eqn:Hlen.
  - apply bool_decide_eq_true_1 in Hlen. injection H as <-.
    cbn [rows cols elems]. split; [reflexivity |]. split; [reflexivity |].
    intros Hwf. rewrite !length_app, length_take, length_drop. nia.
  - destruct src as [|v [|w src]]; try discriminate. injection H as <-.
    cbn [rows cols elems]. split; [reflexivity |]. split; [reflexivity |].
    intros Hwf.
    rewrite !length_app, length_take, length_drop, length_replicate. nia.
Qed.

Lemma setitem_row_is_Some (a : option Mat) (i : nat) (src : list Z)
    (r : option Mat) :
  setitem_row a i src = Ok r → ∃ m m', a = Some m ∧ r = Some m'.
Proof.
  unfold setitem_row. destruct a as [m|]; [| discriminate]. intros H.
  destruct (bool_decide (i < rows m)); [| discriminate].
  destruct (bool_decide (length src = cols m)).
  - injection H as <-. eauto.
  - destruct src as [|v [|w src]]; try discriminate. injection H as <-. eauto.
Qed.

Lemma y12_to_y8_row_kept (filtered : list Z) (column i m : nat)
    (st : Conversion) :
  session_kept st (y12_to_y8_row filtered column i m st).2.
Proof.
  unfold y12_to_y8_row.
  destruct (setitem_row (y8_frame st) i _) as [r|e] eqn:H;
    [| apply session_kept_refl].
  destruct (setitem_row_is_Some _ _ _ _ H) as (y8 & y8' & Hy8 & ->).
  rewrite Hy8 in H. apply setitem_row_kept in H.
  unfold session_kept. cbn [snd format_type y16CameraFlag y8_frame].
  rewrite Hy8. auto.
Qed.

Lemma for_eachM_kept {T : Type} (l : list nat) (body : nat → T → M T)
    (s : T) (st : Conversion) :
  (∀ x s1 st1, session_kept st1 (body x s1 st1).2) →
  session_kept st (for_eachM l body s st).2.
Proof.
  intros Hbody. revert s st. induction l as [|x l IH]; intros s st.
  - apply session_kept_refl.
  - cbn [for_eachM]. unfold mbind, M_bind.
    pose proof (Hbody x s st) as Hx.
    destruct (body x s st) as [[s1|e] st1]; cbn [snd] in *; [| exact Hx].
    apply (session_kept_trans _ st1); [exact Hx | apply IH].
Qed.

Lemma convert_y12_to_y8_kept (frame : Frame) (st : Conversion) :
  session_kept st (convert_y12_to_y8 frame st).2.
Proof.
  unfold convert_y12_to_y8. destruct (shape frame) as [row column].
  unfold lift, mbind, M_bind.
  destruct (np_reshape_m1_3 (tobytes frame)) as [t|e];
    [| apply session_kept_refl].
  pose proof (for_eachM_kept (seq 0 row)
                (y12_to_y8_row (concat (np_delete_axis1 2 t)) column) 0 st
                (y12_to_y8_row_kept _ _)) as H.
  destruct (for_eachM _ _ 0 st) as [[m|e] st1]; exact H.
Qed.

Lemma for_eachM_app {T : Type} (l1 l2 : list nat) (body : nat → T → M T)
    (s : T) (st : Conversion) :
  for_eachM (l1 ++ l2) body s st
  = (s' ← for_eachM l1 body s; for_eachM l2 body s') st.
Proof.
  revert s st. induction l1 as [|x l1 IH]; intros s st.
  - reflexivity.
  - cbn [app for_eachM]. unfold mbind, M_bind in *.
    destruct (body x s st) as [[s1|e] st1]; [apply IH | reflexivity].
Qed.

(** The first [k] passes of the loop of the unpacker, on a buffer with
    at least [k] rows of the width of the frame. *)
Lemma y12_rows_prefix (kept : list Z) (column k : nat) (st : Conversion)
    (y8 : Mat) :
  y8_frame st = Some y8 →
  cols y8 = column →
  k ≤ rows y8 →
  k * column ≤ length kept →
  for_eachM (seq 0 k) (y12_to_y8_row kept column) 0 st
  = (Ok (k * column),
     with_y8_frame st
       (mkMat (rows y8) column
          (take (k * column) kept ++ drop (k * column) (elems y8)))).
Proof.
  intros Hy8 Hcols Hk Hlen.
  set (inv := λ (n m : nat) (st' : Conversion),
         m = n * column ∧
         st' = with_y8_frame st
                 (mkMat (rows y8) column
                    (take (n * column) kept
                       ++ drop (n * column) (elems y8)))).
  destruct (for_eachM_inv inv (seq 0 k) (y12_to_y8_row kept column) 0 st)
    as (m & st' & Hrun & Hm & Hst').
  - split; [reflexivity |]. unfold with_y8_frame.
    destruct st as [ft fl yy], y8 as [r c e]; cbn in *. subst. reflexivity.
  - intros n x m st1 Hn [-> ->].
    apply lookup_seq in Hn as [-> Hn]. cbn [Nat.add] in *.
    assert (n * column + column ≤ length kept) by nia.
    exists (n * column + column), (with_y8_frame st
      (mkMat (rows y8) column
         (take (S n * column) kept ++ drop (S n * column) (elems y8)))).
    split; [| split; [lia | reflexivity]].
    unfold y12_to_y8_row, setitem_row, py_slice, with_y8_frame.
    cbn [y8_frame rows cols elems format_type y16CameraFlag].
    rewrite bool_decide_eq_true_2 by lia.
    rewrite bool_decide_eq_true_2
      by (rewrite length_take, length_drop; lia).
    do 4 f_equal.
    assert (n * column + column - n * column = column) as -> by lia.
    assert ((n + 1) * column = n * column + column) as -> by lia.
    assert (S n * column = n * column + column) as -> by lia.
    apply assign_row_elems. lia.
  - rewrite Hrun. rewrite length_seq in Hm, Hst'. subst. reflexivity.
Qed.

(** The unpacker on a frame that is not taller than the buffer. *)
Lemma convert_y12_to_y8_run_le (frame : Frame) (st : Conversion) (y8 : Mat)
    (row column : nat) :
  shape frame = (row, column) →
  y8_frame st = Some y8 →
  row ≤ rows y8 →
  cols y8 = column →
  length (tobytes frame) `mod` 3 = 0 →
  row * column ≤ 2 * (length (tobytes frame) / 3) →
  let out :=
    mkMat (rows y8) column
      (take (row * column) (kept_bytes frame)
         ++ drop (row * column) (elems y8)) in
  convert_y12_to_y8 frame st = (Ok (OMat out), with_y8_frame st out).
Proof.
  intros Hshape Hy8 Hrows Hcols Hmod Hlen out.
  pose proof (kept_bytes_length _ Hmod) as Hkept.
  unfold convert_y12_to_y8. rewrite Hshape.
  unfold np_reshape_m1_3. rewrite bool_decide_eq_true_2 by exact Hmod.
  unfold lift, mbind, M_bind.
  rewrite (y12_rows_prefix _ column row st y8) by (try assumption; lia).
  reflexivity.
Qed.

Lemma convert_y16_to_rgb_state (cvtColor_BayerRG2BGR : Mat → res Image)
    (scale_abs : Q → Z → Z) (frame : Frame) (st : Conversion) :
  (convert_y16_to_rgb cvtColor_BayerRG2BGR scale_abs frame st).2 = st.
Proof.
  unfold convert_y16_to_rgb.
  repeat match goal with
         | |- context [Z.eqb ?a ?b] => destruct (Z.eqb a b)
         end; reflexivity.
Qed.

Lemma convert_y16_to_rgb_kept (cvtColor_BayerRG2BGR : Mat → res Image)
    (scale_abs : Q → Z → Z) (frame : Frame) (st : Conversion) :
  session_kept st
    (convert_y16_to_rgb cvtColor_BayerRG2BGR scale_abs frame st).2.
Proof. rewrite convert_y16_to_rgb_state. apply session_kept_refl. Qed.

(** X1: whatever the frame, the tag and the outcome (a result or an
    exception), [convert_frame] leaves the session's format and camera
    flag as they were, and the shared buffer keeps its shape; a buffer
    that holds [rows * cols] entries still does so afterwards. *)
Theorem convert_frame_keeps_session
    (cvtColor_YUV2BGR : yuv_code → Frame → res Image)
    (cvtColor_BayerRG2BGR : Mat → res Image) (scale_abs : Q → Z → Z)
    (frame : Frame) (frame_format : string) (st : Conversion) :
  session_kept st
    (convert_frame cvtColor_YUV2BGR cvtColor_BayerRG2BGR scale_abs
       frame frame_format st).2.
Proof.
  unfold convert_frame.
  destruct (pyval_eqb (format_type st) (PyStr "UYVY"));
    [apply session_kept_refl |].
  destruct (pyval_eqb (format_type st) (PyStr "YUY2"));
    [apply session_kept_refl |].
  unfold dict_get, convert_func. cbn [List.find fst snd].
  destruct (String.eqb "Y12 " frame_format).
  - cbn [call1]. apply convert_y12_to_y8_kept.
  - destruct (String.eqb "Y16 " frame_format); cbn [call1].
    + apply convert_y16_to_rgb_kept.
    + apply session_kept_refl.
Qed.

(** X2: with a well-formed buffer of the shape of the frame, what the
    unpacker returns for a frame depends on that frame alone: whatever
    was converted before (with or without success), the returned buffer
    holds the first [row * column] kept bytes of the frame and nothing
    else. *)
Theorem convert_y12_to_y8_overwrites (earlier frame : Frame)
    (st : Conversion) (y8 : Mat) (row column : nat) :
  y8_frame st = Some y8 →
  mat_wf y8 →
  rows y8 = row →
  cols y8 = column →
  shape frame = (row, column) →
  length (tobytes frame) `mod` 3 = 0 →
  row * column ≤ 2 * (length (tobytes frame) / 3) →
  (convert_y12_to_y8 frame (convert_y12_to_y8 earlier st).2).1
  = Ok (OMat (mkMat row column (take (row * column) (kept_bytes frame)))).
Proof.
  intros Hy8 Hwf Hrows Hcols Hshape Hmod Hlen.
  pose proof (convert_y12_to_y8_kept earlier st) as (_ & _ & Hk).
  rewrite Hy8 in Hk.
  destruct (y8_frame (convert_y12_to_y8 earlier st).2) as [y8'|] eqn:Hy8';
    [| contradiction].
  destruct Hk as (Hr & Hc & Hwf'). specialize (Hwf' Hwf).
  rewrite (convert_y12_to_y8_run_le frame _ y8' row column)
    by (try assumption; lia).
  cbn [fst]. do 3 f_equal; [congruence |].
  rewrite drop_ge, app_nil_r; [reflexivity |].
  unfold mat_wf in Hwf'. rewrite Hwf', Hr, Hc, Hrows, Hcols. lia.
Qed.

Lemma convert_y12_to_y8_overwrites_witness :
  (convert_y12_to_y8 frame_2x2
     (convert_y12_to_y8 frame_3x2 session_y12_2x2).2).1
  = Ok (OMat (mkMat 2 2 (take (2 * 2) (kept_bytes frame_2x2)))).
Proof.
  apply (convert_y12_to_y8_overwrites frame_3x2 frame_2x2 session_y12_2x2
           (np_zeros2 2 2) 2 2); reflexivity.
Defined.

(** X3: a frame with fewer rows than the session's buffer (and its
    width) is accepted: its rows replace the leading rows of the buffer
    and the remaining rows keep what an earlier frame left there. *)
Theorem convert_y12_to_y8_short_frame (frame : Frame) (st : Conversion)
    (y8 : Mat) (row column : nat) :
  shape frame = (row, column) →
  y8_frame st = Some y8 →
  row ≤ rows y8 →
  cols y8 = column →
  length (tobytes frame) `mod` 3 = 0 →
  row * column ≤ 2 * (length (tobytes frame) / 3) →
  ∃ out,
    convert_y12_to_y8 frame st = (Ok (OMat out), with_y8_frame st out)
    ∧ rows out = rows y8 ∧ cols out = column
    ∧ (∀ i j, i < row → j < column →
         ∃ b, kept_bytes frame !! (i * column + j) = Some b
              ∧ mat_get out i j = Ok b)
    ∧ (∀ i j, row ≤ i → mat_get out i j = mat_get y8 i j).
Proof.
  intros Hshape Hy8 Hrows Hcols Hmod Hlen.
  pose proof (kept_bytes_length _ Hmod) as Hkept. fold (kept_bytes frame) in Hkept.
  eexists. split; [apply (convert_y12_to_y8_run_le frame st y8 row column);
                   assumption |].
  split; [reflexivity |]. split; [reflexivity |]. split.
  - intros i j Hi Hj.
    assert (i * column + j < row * column) as Hn by nia.
    destruct (lookup_lt_is_Some_2 (kept_bytes frame) (i * column + j))
      as [b Hb]; [lia |].
    exists b. split; [exact Hb |].
    unfold mat_get. cbn [rows cols elems].
    rewrite bool_decide_eq_true_2 by (split; lia).
    rewrite lookup_app_l by (rewrite length_take; lia).
    rewrite lookup_take_lt by exact Hn. rewrite Hb. reflexivity.
  - intros i j Hi. unfold mat_get. cbn [rows cols elems]. rewrite Hcols.
    destruct (bool_decide (i < rows y8 ∧ j < column)); [| reflexivity].
    assert (length (take (row * column) (kept_bytes frame)) = row * column)
      as Htake by (rewrite length_take; lia).
    rewrite lookup_app_r by (rewrite Htake; nia).
    rewrite Htake, lookup_drop.
    assert (row * column + (i * column + j - row * column) = i * column + j)
      as -> by nia.
    reflexivity.
Qed.

Lemma convert_y12_to_y8_short_frame_witness :
  ∃ out,
    convert_y12_to_y8 frame_ABCDEF session_y12_2x2
    = (Ok (OMat out), with_y8_frame session_y12_2x2 out)
    ∧ rows out = 2 ∧ cols out = 2
    ∧ (∀ i j, i < 1 → j < 2 →
         ∃ b, kept_bytes frame_ABCDEF !! (i * 2 + j) = Some b
              ∧ mat_get out i j = Ok b)
    ∧ (∀ i j, 1 ≤ i → mat_get out i j = mat_get (np_zeros2 2 2) i j).
Proof.
  apply (convert_y12_to_y8_short_frame frame_ABCDEF session_y12_2x2
           (np_zeros2 2 2) 1 2); try reflexivity.
  cbn. lia.
Defined.

(** X4: a frame with more rows than the session's buffer (and its width)
    is not turned away at once: every row of the buffer is overwritten
    with the leading rows of the frame, and only then the next row
    assignment raises [IndexError]. *)
Theorem convert_y12_to_y8_tall_frame (frame : Frame) (st : Conversion)
    (y8 : Mat) (row column : nat) :
  shape frame = (row, column) →
  y8_frame st = Some y8 →
  rows y8 < row →
  cols y8 = column →
  length (tobytes frame) `mod` 3 = 0 →
  rows y8 * column ≤ 2 * (length (tobytes frame) / 3) →
  convert_y12_to_y8 frame st
  = (Raise IndexError,
     with_y8_frame st
       (mkMat (rows y8) column
          (take (rows y8 * column) (kept_bytes frame)
             ++ drop (rows y8 * column) (elems y8)))).
Proof.
  intros Hshape Hy8 Hrows Hcols Hmod Hlen.
  pose proof (kept_bytes_length _ Hmod) as Hkept.
  unfold convert_y12_to_y8. rewrite Hshape.
  unfold np_reshape_m1_3. rewrite bool_decide_eq_true_2 by exact Hmod.
  unfold lift. unfold mbind at 1 2. unfold M_bind.
  assert (row = rows y8 + S (row - rows y8 - 1)) as Hsplit by lia.
  rewrite Hsplit at 1. rewrite seq_app, for_eachM_app.
  unfold mbind at 1. unfold M_bind.
  rewrite (y12_rows_prefix _ column (rows y8) st y8)
    by (try assumption; lia).
  cbn [seq for_eachM]. unfold mbind, M_bind, y12_to_y8_row, with_y8_frame.
  cbn [y8_frame setitem_row rows].
  rewrite bool_decide_eq_false_2 by lia. reflexivity.
Qed.

Lemma convert_y12_to_y8_tall_frame_witness :
  convert_y12_to_y8 frame_3x2 session_y12_2x2
  = (Raise IndexError,
     with_y8_frame session_y12_2x2
       (mkMat 2 2
          (take (2 * 2) (kept_bytes frame_3x2)
             ++ drop (2 * 2) (elems (np_zeros2 2 2))))).
Proof.
  apply (convert_y12_to_y8_tall_frame frame_3x2 session_y12_2x2
           (np_zeros2 2 2) 3 2); try reflexivity.
  - cbn. lia.
  - cbn. lia.
Defined.

(** X5: before [init_conversion] has made the buffer, the unpacker never
    returns a frame that has rows: the call raises [ValueError] when the
    byte count is no multiple of three and [TypeError] otherwise, and the
    session stays as it was. *)
Theorem convert_y12_to_y8_without_buffer (frame : Frame) (st : Conversion)
    (row column : nat) :
  shape frame = (row, column) →
  y8_frame st = None →
  0 < row →
  convert_y12_to_y8 frame st
  = (Raise (if bool_decide (length (tobytes frame) `mod` 3 = 0)
            then TypeError else ValueError), st).
Proof.
  intros Hshape Hy8 Hrow. unfold convert_y12_to_y8. rewrite Hshape.
  unfold np_reshape_m1_3, lift, mbind, M_bind.
  destruct (bool_decide (length (tobytes frame) `mod` 3 = 0));
    [| reflexivity].
  destruct row as [|row]; [lia |]. cbn [seq for_eachM].
  unfold mbind, M_bind, y12_to_y8_row. rewrite Hy8. reflexivity.
Qed.

Lemma convert_y12_to_y8_without_buffer_witness :
  convert_y12_to_y8 frame_ABCDEF class_body
  = (Raise (if bool_decide (length (tobytes frame_ABCDEF) `mod` 3 = 0)
            then TypeError else ValueError), class_body).
Proof.
  apply (convert_y12_to_y8_without_buffer frame_ABCDEF class_body 1 2);
    [reflexivity | reflexivity | lia].
Defined.

(** ** [init_conversion] *)

Lemma str_contains_occurs (sub s : string) :
  sub ≠ EmptyString → str_contains sub s = true ↔ occurs_in sub s.
Proof.
  intros Hsub. unfold str_contains, occurs_in.
  destruct (String.index 0 sub s) as [m|] eqn:Hidx.
  - split; [| reflexivity]. intros _. exists m.
    apply (String.index_correct1 0). exact Hidx.
  - split; [discriminate |]. intros [m Hm]. exfalso.
    apply (String.index_correct3 0 m sub s Hidx Hsub); [lia | exact Hm].
Qed.

(** X6: [init_conversion] for the format "Y16 " reads the camera variant
    off the device name: SEE3CAM_20CUG when "See3CAM_20CUG" occurs in the
    name, else SEE3CAM_CU40 when "See3CAM_CU40" occurs in it, else
    OTHER_Y16CAMERAS; the flag found before plays no part. *)
Theorem init_conversion_y16_flag (width height fps : nat)
    (device_name : string) (st : Conversion) :
  let flag :=
    y16CameraFlag
      (init_conversion ("Y16 "%string, width, height, fps) device_name st).2
  in
  (occurs_in "See3CAM_20CUG" device_name → flag = SEE3CAM_20CUG)
  ∧ (¬ occurs_in "See3CAM_20CUG" device_name →
     occurs_in "See3CAM_CU40" device_name → flag = SEE3CAM_CU40)
  ∧ (¬ occurs_in "See3CAM_20CUG" device_name →
     ¬ occurs_in "See3CAM_CU40" device_name → flag = OTHER_Y16CAMERAS).
Proof.
  cbn [init_conversion snd y16CameraFlag].
  change (String.eqb "Y16 " V4L2_PIX_FMT_Y16) with true. cbv iota.
  pose proof (str_contains_occurs "See3CAM_20CUG" device_name
                ltac:(discriminate)) as H1.
  pose proof (str_contains_occurs "See3CAM_CU40" device_name
                ltac:(discriminate)) as H2.
  destruct (str_contains "See3CAM_20CUG" device_name);
    destruct (str_contains "See3CAM_CU40" device_name);
    repeat split; intros; try reflexivity;
    repeat match goal with
           | H : _ ↔ _ |- _ => destruct H
           end;
    try (exfalso; auto; fail);
    try (assert (false = true) by auto; discriminate).
Qed.

Section AfterInit.

Context (cvtColor_YUV2BGR : yuv_code → Frame → res Image)
        (cvtColor_BayerRG2BGR : Mat → res Image)
        (scale_abs : Q → Z → Z).

Local Abbreviation convert_frame' :=
  (convert_frame cvtColor_YUV2BGR cvtColor_BayerRG2BGR scale_abs).
Local Abbreviation convert_y16_to_rgb' :=
  (convert_y16_to_rgb cvtColor_BayerRG2BGR scale_abs).

Lemma dict_get_Y12 (default : callable) :
  dict_get (convert_func cvtColor_BayerRG2BGR scale_abs) "Y12 " default
  = BoundMethod convert_y12_to_y8.
Proof. reflexivity. Qed.

Lemma dict_get_Y16 (default : callable) :
  dict_get (convert_func cvtColor_BayerRG2BGR scale_abs) "Y16 " default
  = BoundMethod convert_y16_to_rgb'.
Proof. reflexivity. Qed.


(** X8: [init_conversion] for a format other than "Y16 " does not touch
    the camera flag, so a frame tagged "Y16 " is then still converted as
    the flag found before says (for a session format that is neither
    "UYVY" nor "YUY2"). *)
Theorem init_conversion_keeps_stale_flag (fmt : string)
    (width height fps : nat) (device_name : string) (st : Conversion)
    (frame : Frame) :
  fmt ≠ "Y16 "%string →
  fmt ≠ "UYVY"%string →
  fmt ≠ "YUY2"%string →
  let st' := (init_conversion (fmt, width, height, fps) device_name st).2 in
  y16CameraFlag st' = y16CameraFlag st
  ∧ (convert_frame' frame "Y16 " st').1 = (convert_y16_to_rgb' frame st).1.
Proof.
  intros H16 HU HY. cbn [init_conversion snd].
  assert (String.eqb fmt V4L2_PIX_FMT_Y16 = false) as ->
    by (apply String.eqb_neq; exact H16).
  split; [reflexivity |].
  rewrite convert_frame_by_tag
    by (cbn [format_type]; congruence).
  rewrite dict_get_Y16. cbn [call1].
  unfold convert_y16_to_rgb. cbn [y16CameraFlag].
  repeat match goal with
         | |- context [Z.eqb ?a ?b] => destruct (Z.eqb a b)
         end; reflexivity.
Qed.

(** X9: after [init_conversion] for a width, a height and a format that
    is neither "UYVY" nor "YUY2", a frame of that height and width tagged
    "Y12 " is unpacked into the buffer made by the initialiser: the result
    is the [height] by [width] array of the first [height * width] kept
    bytes of the frame, whatever the session held before. *)
Theorem convert_frame_y12_after_init (fmt : string) (width height fps : nat)
    (device_name : string) (st : Conversion) (frame : Frame) :
  fmt ≠ "UYVY"%string →
  fmt ≠ "YUY2"%string →
  shape frame = (height, width) →
  length (tobytes frame) `mod` 3 = 0 →
  height * width ≤ 2 * (length (tobytes frame) / 3) →
  let st' := (init_conversion (fmt, width, height, fps) device_name st).2 in
  let out :=
    mkMat height width (take (height * width) (kept_bytes frame)) in
  convert_frame' frame "Y12 " st' = (Ok (OMat out), with_y8_frame st' out).
Proof.
  intros HU HY Hshape Hmod Hlen st' out.
  rewrite convert_frame_by_tag
    by (subst st'; cbn [init_conversion snd format_type]; congruence).
  rewrite dict_get_Y12. cbn [call1].
  rewrite (convert_y12_to_y8_run_le frame st' (np_zeros2 height width)
             height width); try assumption; try reflexivity.
  cbn [np_zeros2 rows elems].
  rewrite drop_ge, app_nil_r by (rewrite length_replicate; lia).
  reflexivity.
Qed.

End AfterInit.

Lemma init_conversion_keeps_stale_flag_witness :
  let st' :=
    (init_conversion ("Y12 "%string, 2, 2, 30) "See3CAM_CU135"
       session_20cug).2 in
  y16CameraFlag st' = y16CameraFlag session_20cug
  ∧ (convert_frame black_image demosaic_RGGB scale_abs_exact
       frame_y16_2x2 "Y16 " st').1
    = (convert_y16_to_rgb demosaic_RGGB scale_abs_exact
         frame_y16_2x2 session_20cug).1.
Proof.
  apply (init_conversion_keeps_stale_flag black_image demosaic_RGGB
           scale_abs_exact "Y12 " 2 2 30 "See3CAM_CU135" session_20cug
           frame_y16_2x2); discriminate.
Defined.

Lemma convert_frame_y12_after_init_witness :
  let st' :=
    (init_conversion ("Y12 "%string, 2, 2, 30) "See3CAM_CU135"
       class_body).2 in
  let out := mkMat 2 2 (take (2 * 2) (kept_bytes frame_2x2)) in
  convert_frame black_image demosaic_RGGB scale_abs_exact
    frame_2x2 "Y12 " st'
  = (Ok (OMat out), with_y8_frame st' out).
Proof.
  apply (convert_frame_y12_after_init black_image demosaic_RGGB
           scale_abs_exact "Y12 " 2 2 30 "See3CAM_CU135" class_body
           frame_2x2); try discriminate; reflexivity.
Defined.

(** ** More on [convert_y12_for_still] *)

Lemma buf_set_inv (buf buf' : list Z) (k : nat) (v : Z) :
  buf_set buf k v = Ok buf' → k < length buf ∧ length buf' = length buf.
Proof.
  unfold buf_set. destruct (bool_decide (k < length buf)) eqn:Hk;
    [| discriminate].
  apply bool_decide_eq_true_1 in Hk. intros [= <-].
  rewrite length_insert. auto.
Qed.

Lemma buf_set_raise (buf : list Z) (k : nat) (v : Z) (e : exn) :
  buf_set buf k v = Raise e → e = IndexError.
Proof.
  unfold buf_set. destruct (bool_decide (k < length buf)); congruence.
Qed.

Lemma bytes_get_raise (raw : list Z) (k : nat) (e : exn) :
  bytes_get raw k = Raise e → e = IndexError.
Proof. unfold bytes_get. destruct (raw !! k); congruence. Qed.

(** What one pass of the inner loop does when it comes back: the four
    offsets were inside the buffer, whose length is unchanged; and the
    only exception it raises is [IndexError]. *)
Lemma y12_for_still_body_inv (raw : list Z) (stride j i : nat)
    (s : list Z * nat) :
  match y12_for_still_body raw stride j i s with
  | Ok s' => stride * j + i + 3 < length s.1 ∧ length s'.1 = length s.1
  | Raise e => e = IndexError
  end.
Proof.
  destruct s as [buf m]. unfold y12_for_still_body.
  repeat
    (match goal with
     | |- context [bytes_get ?r ?k ≫= _] =>
         let E := fresh "E" in
         destruct (bytes_get r k) as [?|?] eqn:E;
         [| apply bytes_get_raise in E]
     | |- context [buf_set ?b ?k ?v ≫= _] =>
         let E := fresh "E" in
         destruct (buf_set b k v) as [?|?] eqn:E;
         [apply buf_set_inv in E | apply buf_set_raise in E]
     end; cbn [mbind res_bind mret res_ret]; try assumption).
  cbn [fst]. intuition lia.
Qed.

Lemma for_each_raise_kind {A T : Type} (l : list A) (body : A → T → res T)
    (s : T) (e : exn) :
  (∀ x s1 e1, body x s1 = Raise e1 → e1 = IndexError) →
  for_each l body s = Raise e → e = IndexError.
Proof.
  intros Hbody. revert s. induction l as [|x l IH]; intros s H.
  - discriminate.
  - cbn [for_each] in H. destruct (body x s) as [s1|e1] eqn:Hx.
    + apply (IH s1). exact H.
    + injection H as <-. apply (Hbody x s). exact Hx.
Qed.

Lemma y12_for_still_body_raise (raw : list Z) (stride j i : nat)
    (s : list Z * nat) (e : exn) :
  y12_for_still_body raw stride j i s = Raise e → e = IndexError.
Proof.
  intros H. pose proof (y12_for_still_body_inv raw stride j i s) as Hinv.
  rewrite H in Hinv. exact Hinv.
Qed.

Lemma y12_for_still_body_length (raw : list Z) (stride j i : nat)
    (s s' : list Z * nat) :
  y12_for_still_body raw stride j i s = Ok s' →
  stride * j + i + 3 < length s.1 ∧ length s'.1 = length s.1.
Proof.
  intros H. pose proof (y12_for_still_body_inv raw stride j i s) as Hinv.
  rewrite H in Hinv. exact Hinv.
Qed.

(** X10: a frame with an odd column count and at least one row is never
    converted by the still-capture routine: whatever bytes it brings, the
    call ends in [IndexError] (the last pass over a row reaches beyond
    the row, and in the last row beyond the buffer). *)
Theorem convert_y12_for_still_odd_width (frame : Frame) (row column : nat) :
  shape frame = (row, column) →
  Nat.Odd column →
  0 < row →
  convert_y12_for_still frame = Raise IndexError.
Proof.
  intros Hshape [p Hp] Hrow. unfold convert_y12_for_still. rewrite Hshape.
  set (stride := column * 2).
  set (body := λ j, for_each (py_range stride 4)
                      (y12_for_still_body (tobytes frame) stride j)).
  set (J := λ s : list Z * nat, length s.1 = row * column * 2).
  assert (∀ j s1 s2, J s1 → body j s1 = Ok s2 → J s2) as Hkeep.
  { intros j s1 s2. unfold body. apply for_each_preserves.
    intros i t1 t2 Ht1 Hrun. unfold J in *.
    apply y12_for_still_body_length in Hrun as [_ ->]. exact Ht1. }
  destruct (for_each_raises J (seq 0 row) body
              (replicate (row * column * 2) 0%Z, 0) (row - 1)) as [e He].
  - unfold J. cbn [fst]. apply length_replicate.
  - intros j s1 s2 _. apply Hkeep.
  - apply elem_of_seq. lia.
  - intros s Hs. unfold body.
    apply (for_each_raises J _ _ _ (p * 4)); [exact Hs | | | ].
    + intros i t1 t2 _ Ht1 Hrun. unfold J in *.
      apply y12_for_still_body_length in Hrun as [_ ->]. exact Ht1.
    + apply py_range_elem; unfold stride; lia.
    + intros t Ht. unfold J in Ht.
      destruct (y12_for_still_body (tobytes frame) stride (row - 1) (p * 4) t)
        as [t'|e] eqn:Hrun; [| by eexists].
      apply y12_for_still_body_length in Hrun as [Hlt _].
      unfold stride in Hlt. nia.
  - fold stride. fold body. rewrite He. cbn [mbind res_bind]. f_equal.
    apply (for_each_raise_kind _ _ _ _
             (λ j s1 e1 H, for_each_raise_kind _ _ _ _
                             (y12_for_still_body_raise _ _ _) H) He).
Qed.

Lemma convert_y12_for_still_odd_width_witness :
  convert_y12_for_still frame_1x3 = Raise IndexError.
Proof.
  apply (convert_y12_for_still_odd_width frame_1x3 1 3);
    [reflexivity | exists 1; reflexivity | lia].
Defined.

(** The two bytes that the routine lays down for sample [n] of a frame of
    even width. *)
Lemma convert_y12_for_still_sample (frame : Frame) (row h n : nat)
    (b0 b1 b2 : Z) :
  shape frame = (row, 2 * h) →
  3 * (row * h) ≤ length (tobytes frame) →
  n < row * (2 * h) →
  tobytes frame !! (3 * (n / 2)) = Some b0 →
  tobytes frame !! (3 * (n / 2) + 1) = Some b1 →
  tobytes frame !! (3 * (n / 2) + 2) = Some b2 →
  ∃ out, convert_y12_for_still frame = Ok out
         ∧ out !! (2 * n) = padded_quad b0 b1 b2 !! (2 * (n `mod` 2))
         ∧ out !! (2 * n + 1)
           = padded_quad b0 b1 b2 !! (2 * (n `mod` 2) + 1).
Proof.
  intros Hshape Hraw Hn H0 H1 H2.
  destruct (convert_y12_for_still_run frame row h Hshape Hraw)
    as (out & Hrun & _ & _ & Hq).
  cbn [fst] in Hq. exists out. split; [exact Hrun |].
  assert (quad_at (tobytes frame) (n / 2) = Some (padded_quad b0 b1 b2))
    as Hquad by (unfold quad_at; rewrite H0, H1, H2; reflexivity).
  pose proof (Nat.Div0.div_mod n 2) as Hdm.
  pose proof (Nat.mod_upper_bound n 2 ltac:(lia)) as Hm.
  assert (n / 2 < row * h) as Ht by lia.
  split.
  - rewrite <- (Hq (n / 2) _ (2 * (n `mod` 2)) Ht Hquad) by lia.
    f_equal. lia.
  - rewrite <- (Hq (n / 2) _ (2 * (n `mod` 2) + 1) Ht Hquad) by lia.
    f_equal. lia.
Qed.

Lemma padded_quad_bounds (b0 b1 b2 : Z) (e : nat) :
  e < 2 →
  ∃ lo hi, padded_quad b0 b1 b2 !! (2 * e) = Some lo
           ∧ padded_quad b0 b1 b2 !! (2 * e + 1) = Some hi
           ∧ (0 ≤ lo < 256)%Z ∧ (0 ≤ hi < 16)%Z.
Proof.
  intros He. unfold padded_quad.
  pose proof (Z.mod_pos_bound b0 16).
  pose proof (Z.mod_pos_bound b1 16).
  pose proof (Z.mod_pos_bound b2 16).
  pose proof (Z.mod_pos_bound (b0 / 16) 16).
  pose proof (Z.mod_pos_bound (b1 / 16) 16).
  pose proof (Z.mod_pos_bound (b2 / 16) 16).
  destruct e as [|[|e]]; [| | lia]; cbn [Nat.mul Nat.add lookup list_lookup];
    eexists _, _; (split; [reflexivity |]); (split; [reflexivity |]);
    rewrite ?shiftr_land_F0, ?shiftl_4, ?land_0F; lia.
Qed.

(** X11: the buffer returned for a frame of even width holds one 16-bit
    little-endian word per sample whose upper four bits are padding: of
    the two bytes of sample [n], the first is a byte and the second is
    below 16, so the word is a 12-bit value. *)
Theorem convert_y12_for_still_words_12bit (frame : Frame)
    (row column : nat) :
  shape frame = (row, column) →
  Nat.Even column →
  3 * (row * column / 2) ≤ length (tobytes frame) →
  ∃ out,
    convert_y12_for_still frame = Ok out
    ∧ ∀ n, n < row * column →
        ∃ lo hi, out !! (2 * n) = Some lo ∧ out !! (2 * n + 1) = Some hi
                 ∧ (0 ≤ lo < 256)%Z ∧ (0 ≤ hi < 16)%Z
                 ∧ (0 ≤ lo + Z.shiftl hi 8 < 4096)%Z.
Proof.
  intros Hshape [h ->] Hraw.
  assert (row * (2 * h) / 2 = row * h) as Hhalf.
  { assert (row * (2 * h) = row * h * 2) as -> by lia.
    apply Nat.div_mul. lia. }
  rewrite Hhalf in Hraw.
  destruct (convert_y12_for_still_run frame row h Hshape Hraw)
    as (out & Hrun & _). exists out. split; [exact Hrun |].
  intros n Hn.
  pose proof (Nat.Div0.div_mod n 2) as Hdm.
  pose proof (Nat.mod_upper_bound n 2 ltac:(lia)) as Hm.
  destruct (lookup_lt_is_Some_2 (tobytes frame) (3 * (n / 2))) as [b0 H0];
    [lia |].
  destruct (lookup_lt_is_Some_2 (tobytes frame) (3 * (n / 2) + 1))
    as [b1 H1]; [lia |].
  destruct (lookup_lt_is_Some_2 (tobytes frame) (3 * (n / 2) + 2))
    as [b2 H2]; [lia |].
  destruct (convert_y12_for_still_sample frame row h n b0 b1 b2
              Hshape Hraw Hn H0 H1 H2) as (out' & Hrun' & Hlo & Hhi).
  rewrite Hrun in Hrun'. injection Hrun' as <-.
  destruct (padded_quad_bounds b0 b1 b2 (n `mod` 2) Hm)
    as (lo & hi & Elo & Ehi & Blo & Bhi).
  exists lo, hi. rewrite Hlo, Hhi.
  split; [exact Elo |]. split; [exact Ehi |].
  split; [exact Blo |]. split; [exact Bhi |].
  rewrite Z.shiftl_mul_pow2 by lia. change (2 ^ 8)%Z with 256%Z. lia.
Qed.

Lemma convert_y12_for_still_words_12bit_witness :
  ∃ out,
    convert_y12_for_still frame_2x2 = Ok out
    ∧ ∀ n, n < 2 * 2 →
        ∃ lo hi, out !! (2 * n) = Some lo ∧ out !! (2 * n + 1) = Some hi
                 ∧ (0 ≤ lo < 256)%Z ∧ (0 ≤ hi < 16)%Z
                 ∧ (0 ≤ lo + Z.shiftl hi 8 < 4096)%Z.
Proof.
  apply (convert_y12_for_still_words_12bit frame_2x2 2 2).
  - reflexivity.
  - exists 1. reflexivity.
  - cbn. lia.
Defined.

(** X12: the two Y12 paths agree. For a frame of bytes, of even width,
    and a session buffer of its shape, the entry that [convert_y12_to_y8]
    returns for a sample is the 16-bit word that [convert_y12_for_still]
    returns for it, shifted right by four bits: the 8-bit path is the
    truncation of the 16-bit one. *)
Theorem y12_paths_agree (frame : Frame) (st : Conversion) (y8 : Mat)
    (row column : nat) :
  shape frame = (row, column) →
  Nat.Even column →
  Forall (λ b, (0 ≤ b < 256)%Z) (tobytes frame) →
  length (tobytes frame) `mod` 3 = 0 →
  3 * (row * column / 2) ≤ length (tobytes frame) →
  y8_frame st = Some y8 →
  rows y8 = row →
  cols y8 = column →
  ∃ still y8_out,
    convert_y12_for_still frame = Ok still
    ∧ (convert_y12_to_y8 frame st).1 = Ok (OMat y8_out)
    ∧ ∀ n, n < row * column →
        ∃ lo hi, still !! (2 * n) = Some lo
                 ∧ still !! (2 * n + 1) = Some hi
                 ∧ elems y8_out !! n
                   = Some (Z.shiftr (lo + Z.shiftl hi 8) 4).
Proof.
  intros Hshape [h ->] Hbytes Hmod Hraw Hy8 Hrows Hcols.
  assert (row * (2 * h) / 2 = row * h) as Hhalf.
  { assert (row * (2 * h) = row * h * 2) as -> by lia.
    apply Nat.div_mul. lia. }
  rewrite Hhalf in Hraw.
  assert (row * (2 * h) ≤ 2 * (length (tobytes frame) / 3)) as Hroom.
  { assert (row * h ≤ length (tobytes frame) / 3)
      by (apply Nat.div_le_lower_bound; lia).
    lia. }
  destruct (convert_y12_for_still_run frame row h Hshape Hraw)
    as (still & Hrun & _).
  exists still. eexists. split; [exact Hrun |]. split.
  { rewrite (convert_y12_to_y8_run frame st y8 row (2 * h)) by assumption.
    reflexivity. }
  intros n Hn. cbn [elems].
  pose proof (Nat.Div0.div_mod n 2) as Hdm.
  pose proof (Nat.mod_upper_bound n 2 ltac:(lia)) as Hm.
  destruct (lookup_lt_is_Some_2 (tobytes frame) (3 * (n / 2))) as [b0 H0];
    [lia |].
  destruct (lookup_lt_is_Some_2 (tobytes frame) (3 * (n / 2) + 1))
    as [b1 H1]; [lia |].
  destruct (lookup_lt_is_Some_2 (tobytes frame) (3 * (n / 2) + 2))
    as [b2 H2]; [lia |].
  destruct (convert_y12_for_still_sample frame row h n b0 b1 b2
              Hshape Hraw Hn H0 H1 H2) as (still' & Hrun' & Hlo & Hhi).
  rewrite Hrun in Hrun'. injection Hrun' as <-.
  pose proof (kept_bytes_length _ Hmod) as Hkept.
  rewrite lookup_app_l by (rewrite length_take; lia).
  rewrite lookup_take_lt by exact Hn.
  rewrite (kept_bytes_lookup _ _ Hmod).
  rewrite Forall_lookup in Hbytes.
  pose proof (Hbytes _ _ H0) as B0. pose proof (Hbytes _ _ H1) as B1.
  destruct (n `mod` 2) as [|[|e]] eqn:He; [| | lia];
    eexists _, _; rewrite Hlo, Hhi;
    change (2 * 0) with 0; change (0 + 1) with 1;
    change (2 * 1) with 2; change (2 + 1) with 3;
    cbn [lookup list_lookup padded_quad];
    (split; [reflexivity |]); (split; [reflexivity |]);
    rewrite ?Nat.add_0_r, ?H0, ?H1; f_equal;
    rewrite ?shiftr_land_F0, ?shiftl_4, ?land_0F;
    rewrite Z.shiftl_mul_pow2, Z.shiftr_div_pow2 by lia;
    change (2 ^ 4)%Z with 16%Z; change (2 ^ 8)%Z with 256%Z;
    Z.to_euclidean_division_equations; lia.
Qed.

Lemma y12_paths_agree_witness :
  ∃ still y8_out,
    convert_y12_for_still frame_2x2 = Ok still
    ∧ (convert_y12_to_y8 frame_2x2 session_y12_2x2).1 = Ok (OMat y8_out)
    ∧ ∀ n, n < 2 * 2 →
        ∃ lo hi, still !! (2 * n) = Some lo
                 ∧ still !! (2 * n + 1) = Some hi
                 ∧ elems y8_out !! n
                   = Some (Z.shiftr (lo + Z.shiftl hi 8) 4).
Proof.
  apply (y12_paths_agree frame_2x2 session_y12_2x2 (np_zeros2 2 2) 2 2);
    try reflexivity.
  - exists 1. reflexivity.
  - repeat constructor; lia.
Defined.

(** ** Frames that lack bytes, and calls that leave the session alone *)

Lemma bytes_get_inv (raw : list Z) (k : nat) (b : Z) :
  bytes_get raw k = Ok b → k < length raw.
Proof.
  unfold bytes_get. destruct (raw !! k) as [v|] eqn:E; [| discriminate].
  intros _. apply lookup_lt_Some in E. exact E.
Qed.

(** A pass of the inner loop that comes back has read three bytes. *)
Lemma y12_for_still_body_reads (raw : list Z) (stride j i : nat)
    (s s' : list Z * nat) :
  y12_for_still_body raw stride j i s = Ok s' →
  s.2 + 3 ≤ length raw ∧ s'.2 = s.2 + 3.
Proof.
  destruct s as [buf m]. unfold y12_for_still_body. intros H.
  destruct (bytes_get raw m) as [b0|] eqn:E0;
    cbn [mbind res_bind] in H; [| discriminate].
  destruct (buf_set buf _ _) as [buf1|];
    cbn [mbind res_bind] in H; [| discriminate].
  destruct (bytes_get raw (m + 2)) as [b2|] eqn:E2;
    cbn [mbind res_bind] in H; [| discriminate].
  destruct (buf_set buf1 _ _) as [buf2|];
    cbn [mbind res_bind] in H; [| discriminate].
  destruct (bytes_get raw (m + 1)) as [b1|] eqn:E1;
    cbn [mbind res_bind] in H; [| discriminate].
  destruct (buf_set buf2 _ _) as [buf3|];
    cbn [mbind res_bind] in H; [| discriminate].
  destruct (buf_set buf3 _ _) as [buf4|];
    cbn [mbind res_bind mret res_ret] in H; [| discriminate].
  injection H as <-. cbn [fst snd].
  apply bytes_get_inv in E2. lia.
Qed.

Lemma for_each_measure {A T : Type} (f : T → nat) (d bound : nat)
    (l : list A) (body : A → T → res T) (s s' : T) :
  (∀ x s1 s2, body x s1 = Ok s2 → f s1 + d ≤ bound ∧ f s2 = f s1 + d) →
  for_each l body s = Ok s' →
  f s' = f s + d * length l ∧ (l ≠ [] → f s' ≤ bound).
Proof.
  intros Hbody. revert s. induction l as [|x l IH]; intros s H.
  - cbn in H. injection H as <-. split; [cbn; lia | congruence].
  - cbn [for_each] in H. destruct (body x s) as [s1|e] eqn:Hx;
      [| discriminate].
    destruct (Hbody x s s1 Hx) as [Hb Hs1].
    destruct (IH s1 H) as [Hm Hbound]. cbn [length].
    split; [lia |]. intros _.
    destruct l as [|y l]; [| apply Hbound; discriminate].
    cbn in H. injection H as <-. lia.
Qed.

(** X14: a frame of even width with at least one sample that brings fewer
    than three bytes for every two samples is never converted by the
    still-capture routine: the call ends in [IndexError]. *)
Theorem convert_y12_for_still_short_frame (frame : Frame)
    (row column : nat) :
  shape frame = (row, column) →
  Nat.Even column →
  length (tobytes frame) < 3 * (row * column / 2) →
  convert_y12_for_still frame = Raise IndexError.
Proof.
  intros Hshape [h ->] Hshort.
  assert (row * (2 * h) / 2 = row * h) as Hhalf.
  { assert (row * (2 * h) = row * h * 2) as -> by lia.
    apply Nat.div_mul. lia. }
  rewrite Hhalf in Hshort.
  unfold convert_y12_for_still. rewrite Hshape.
  assert (2 * h * 2 = h * 4) as -> by lia.
  rewrite py_range_exact by lia.
  set (raw := tobytes frame) in *.
  set (body := λ j, for_each ((λ k, k * 4) <$> seq 0 h)
                      (y12_for_still_body raw (h * 4) j)).
  destruct (for_each (seq 0 row) body (replicate (row * (2 * h) * 2) 0%Z, 0))
    as [s|e] eqn:Hrun.
  - exfalso.
    assert (0 < h) as Hh by nia.
    assert (∀ j s1 s2, body j s1 = Ok s2 →
              s1.2 + 3 * h ≤ length raw ∧ s2.2 = s1.2 + 3 * h) as Hrow.
    { intros j s1 s2 Hj. unfold body in Hj.
      destruct (for_each_measure snd 3 (length raw) _ _ _ _
                  (y12_for_still_body_reads raw (h * 4) j) Hj) as [Hm Hb].
      rewrite length_fmap, length_seq in Hm.
      split; [| lia].
      rewrite <- Hm. apply Hb. destruct h; [lia | discriminate]. }
    destruct (for_each_measure snd (3 * h) (length raw) _ _ _ _ Hrow Hrun)
      as [Hm Hb].
    rewrite length_seq in Hm. cbn [snd] in Hm.
    assert (0 < row) as Hr by nia.
    assert (s.2 ≤ length raw)
      by (apply Hb; destruct row; [lia | discriminate]).
    nia.
  - cbn [mbind res_bind]. f_equal.
    apply (for_each_raise_kind _ _ _ _
             (λ j s1 e1 H, for_each_raise_kind _ _ _ _
                             (y12_for_still_body_raise _ _ _) H) Hrun).
Qed.

Lemma convert_y12_for_still_short_frame_witness :
  convert_y12_for_still frame_2x2_short = Raise IndexError.
Proof.
  apply (convert_y12_for_still_short_frame frame_2x2_short 2 2).
  - reflexivity.
  - exists 1. reflexivity.
  - cbn. lia.
Defined.

(** X15: only the Y12 unpacker writes to the session. In a "UYVY" or
    "YUY2" session, and for every tag other than "Y12 ", [convert_frame]
    hands the session back exactly as it found it, shared buffer
    included. *)
Theorem convert_frame_leaves_session
    (cvtColor_YUV2BGR : yuv_code → Frame → res Image)
    (cvtColor_BayerRG2BGR : Mat → res Image) (scale_abs : Q → Z → Z)
    (frame : Frame) (frame_format : string) (st : Conversion) :
  format_type st = PyStr "UYVY" ∨ format_type st = PyStr "YUY2"
  ∨ frame_format ≠ "Y12 "%string →
  (convert_frame cvtColor_YUV2BGR cvtColor_BayerRG2BGR scale_abs
     frame frame_format st).2 = st.
Proof.
  intros H. unfold convert_frame.
  destruct (pyval_eqb (format_type st) (PyStr "UYVY")) eqn:EU;
    [reflexivity |].
  destruct (pyval_eqb (format_type st) (PyStr "YUY2")) eqn:EY;
    [reflexivity |].
  destruct H as [H|[H|H]].
  - rewrite H in EU. discriminate.
  - rewrite H in EY. discriminate.
  - unfold dict_get, convert_func. cbn [List.find fst snd].
    assert (String.eqb "Y12 " frame_format = false) as ->
      by (apply String.eqb_neq; congruence).
    destruct (String.eqb "Y16 " frame_format); cbn [call1 snd].
    + apply convert_y16_to_rgb_state.
    + reflexivity.
Qed.

Lemma convert_frame_leaves_session_witness :
  (convert_frame black_image demosaic_RGGB scale_abs_exact
     frame_y16_2x2 "Y16 " session_20cug).2 = session_20cug.
Proof.
  apply (convert_frame_leaves_session black_image demosaic_RGGB
           scale_abs_exact frame_y16_2x2 "Y16 " session_20cug).
  right. right. discriminate.
Defined.
